(** * AEPsych: the monotonic rejection GP model and the model base class

    A shallow embedding of [aepsych/models/monotonic_rejection_gp.py] and of
    the query methods of [aepsych/models/base.py].

    Tensors are modelled by their shape and their entries.  Floating-point
    scalars stay abstract: the numerical collaborators (torch, scipy, botorch,
    gpytorch) enter through the class [Numerics] and the variables of the
    section below, so every statement holds whatever values they compute.
    Python exceptions, the warnings log and the global random generator are
    threaded through a small state-and-exception monad. *)

From Stdlib Require Import String List ZArith Bool Arith Lia.
Import ListNotations.

Set Implicit Arguments.

(** ** Python effects: exceptions, warnings, random generator *)

Module Py.

Inductive exn : Type :=
| RuntimeError (msg : string)
| TypeError (msg : string)
| IndexError (msg : string)
| AssertionError (msg : string)
| ValidationError (msg : string).

Inductive Result (A : Type) : Type :=
| Ok (a : A)
| Raise (e : exn).
Arguments Ok {A} a.
Arguments Raise {A} e.

Inductive Warning : Type :=
| UserWarning (msg : string).

(** The part of the interpreter state the modelled code touches: the state
    of the global random generator and the warnings emitted so far (most
    recent last). *)
Record World : Type := mkWorld {
  rng : nat;
  warnings : list Warning
}.

Definition M (A : Type) : Type := World -> Result A * World.

Definition ret {A} (a : A) : M A := fun w => (Ok a, w).

Definition bind {A B} (m : M A) (k : A -> M B) : M B :=
  fun w =>
    match m w with
    | (Ok a, w') => k a w'
    | (Raise e, w') => (Raise e, w')
    end.

Definition raise {A} (e : exn) : M A := fun w => (Raise e, w).

Definition lift {A} (r : Result A) : M A := fun w => (r, w).

(** [warnings.warn(msg)] under the default filter: the message is recorded
    and control returns to the caller. *)
Definition warn (msg : string) : M unit :=
  fun w => (Ok tt, mkWorld (rng w) (warnings w ++ [UserWarning msg])).

(** Reading the generator state and advancing it. *)
Definition next_seed : M nat :=
  fun w => (Ok (rng w), mkWorld (S (rng w)) (warnings w)).

Definition rbind {A B} (r : Result A) (k : A -> Result B) : Result B :=
  match r with
  | Ok a => k a
  | Raise e => Raise e
  end.

End Py.

Import Py.

Declare Scope py_scope.
Delimit Scope py_scope with py.
Notation "x <- m ;; k" := (bind m (fun x => k))
  (at level 61, m at next level, right associativity) : py_scope.
Notation "m ;;; k" := (bind m (fun _ => k))
  (at level 61, right associativity) : py_scope.
Notation "'let?' x := r 'in' k" := (rbind r (fun x => k))
  (at level 61, x name, r at next level, right associativity) : py_scope.
Open Scope py_scope.

(** ** Tensors *)

Section Tensors.

Variable R : Type.

(** A tensor of rank 0, 1 or 2.  A rank-2 tensor carries its column count,
    so that the shape [(0, c)] is represented. *)
Inductive Tensor : Type :=
| T0 (x : R)
| T1 (v : list R)
| T2 (ncols : nat) (rows : list (list R)).

Definition shape (t : Tensor) : list nat :=
  match t with
  | T0 _ => []
  | T1 v => [length v]
  | T2 c rows => [length rows; c]
  end.

(** Every row of a rank-2 tensor has [ncols] entries. *)
Definition wf (t : Tensor) : bool :=
  match t with
  | T2 c rows => forallb (fun r => length r =? c) rows
  | _ => true
  end.

(** [t.shape[0]] *)
Definition shape0 (t : Tensor) : Result nat :=
  match shape t with
  | n :: _ => Ok n
  | [] => Raise (IndexError "tuple index out of range")
  end.

(** [torch.tensor([])], of shape [(0,)]. *)
Definition empty_tensor : Tensor := T1 [].

Definition is_legacy_empty (t : Tensor) : bool :=
  match t with
  | T1 [] => true
  | _ => false
  end.

Definition ndim (t : Tensor) : nat := length (shape t).

Definition zip_rows (a b : list (list R)) : list (list R) :=
  map (fun p => fst p ++ snd p) (combine a b).

(** [torch.cat((a, b), dim)].  Tensors of shape [(0,)] are skipped, as
    torch documents; the others must agree on every dimension but [dim]. *)
Definition torch_cat (a b : Tensor) (dim : nat) : Result Tensor :=
  let single t :=
    match t with
    | T0 _ => Raise (RuntimeError "zero-dimensional tensor cannot be concatenated")
    | _ => if dim <? ndim t then Ok t
           else Raise (IndexError "Dimension out of range")
    end in
  if is_legacy_empty a then single b
  else if is_legacy_empty b then single a
  else
    match a, b with
    | T0 _, _ | _, T0 _ =>
        Raise (RuntimeError "zero-dimensional tensor cannot be concatenated")
    | T1 v, T1 w =>
        if dim =? 0 then Ok (T1 (v ++ w))
        else Raise (IndexError "Dimension out of range")
    | T2 c r, T2 c' r' =>
        match dim with
        | 0 => if c =? c' then Ok (T2 c (r ++ r'))
               else Raise (RuntimeError "Sizes of tensors must match except in dimension 0")
        | 1 => if length r =? length r' then Ok (T2 (c + c') (zip_rows r r'))
               else Raise (RuntimeError "Sizes of tensors must match except in dimension 1")
        | _ => Raise (IndexError "Dimension out of range")
        end
    | _, _ => Raise (RuntimeError "Tensors must have same number of dimensions")
    end.

(** [t.squeeze()]: every dimension of size 1 is removed. *)
Definition squeeze (t : Tensor) : Tensor :=
  match t with
  | T0 x => T0 x
  | T1 [x] => T0 x
  | T1 v => T1 v
  | T2 1 [[x]] => T0 x
  | T2 _ [r] => T1 r
  | T2 1 rows => T1 (concat rows)
  | T2 c rows => T2 c rows
  end.

(** Column [j] of a list of rows. *)
Definition column (rows : list (list R)) (j : nat) : list R :=
  flat_map (fun r => match nth_error r j with
                     | Some x => [x]
                     | None => []
                     end) rows.

Definition tmap (f : R -> R) (t : Tensor) : Tensor :=
  match t with
  | T0 x => T0 (f x)
  | T1 v => T1 (map f v)
  | T2 c rows => T2 c (map (map f) rows)
  end.

End Tensors.

Arguments T0 {R} x.
Arguments T1 {R} v.
Arguments T2 {R} ncols rows.
Arguments empty_tensor {R}.

(** ** The numerics collaborator *)

(** Scalar operations supplied by torch and scipy.  Nothing is assumed about
    the values they return. *)
Class Numerics (R : Type) : Type := {
  of_int : Z -> R;            (* an int converted to a float *)
  geb : R -> R -> bool;       (* [a >= b] *)
  col_mean : list R -> R;     (* [torch.mean] of one column *)
  col_var : list R -> R;      (* [torch.var] of one column *)
  clamp_min : R -> R -> R;    (* [x.clamp_min(lo)] on one entry *)
  norm_cdf : R -> R;          (* [scipy.stats.norm.cdf] *)
  norm_ppf : R -> R           (* [scipy.stats.norm.ppf] *)
}.

(** ** aepsych.utils *)

Section Utils.

Context {R : Type} {Num : Numerics R}.

(** Modelled from the spec: [promote_0d] of [aepsych.utils], which is not
    among the sources.  "Scalars promoted to length-1 vectors"; anything
    else is returned as it is. *)
Definition promote_0d (t : Tensor R) : Tensor R :=
  match t with
  | T0 x => T1 [x]
  | _ => t
  end.

(** Modelled from the spec: [_process_bounds] of [aepsych.utils], which is
    not among the sources.  "Given lower bound, upper bound, and an optional
    explicit dimensionality, returns a canonical (lower, upper, dim) triple.
    Fails with a validation error if lower/upper lengths disagree, if dim is
    inconsistent with their length, or if any lower[i] >= upper[i]."  The
    bounds are taken as vectors, a scalar being a vector of length 1. *)
Definition _process_bounds (lb ub : list R) (dim : option nat)
  : Result (list R * list R * nat) :=
  if negb (length lb =? length ub) then
    Raise (ValidationError "bounds should be of equal shape!")
  else
    let d := match dim with Some d => d | None => length lb end in
    if negb (d =? length lb) then
      Raise (ValidationError "dim does not match shape of bounds!")
    else if existsb (fun p => geb (fst p) (snd p)) (combine lb ub) then
      Raise (ValidationError "lower bound is not less than upper bound!")
    else Ok (lb, ub, d).

(** Python's [l * k] on a list. *)
Definition list_mul {A} (l : list A) (k : nat) : list A :=
  concat (repeat l k).

(** Python's [l[i]], with negative indices counted from the end. *)
Definition py_index {A} (l : list A) (i : Z) : Result A :=
  let j := if (i <? 0)%Z then (i + Z.of_nat (length l))%Z else i in
  if (j <? 0)%Z then Raise (IndexError "index out of range")
  else match nth_error l (Z.to_nat j) with
       | Some x => Ok x
       | None => Raise (IndexError "index out of range")
       end.

(** [torch.mean(t, dim=0)] and [torch.var(t, dim=0)], given the reduction of
    one column. *)
Definition reduce_dim0 (f : list R -> R) (t : Tensor R) : Result (Tensor R) :=
  match t with
  | T0 _ => Raise (IndexError "Dimension out of range")
  | T1 v => Ok (T0 (f v))
  | T2 c rows => Ok (T1 (map (fun j => f (column rows j)) (seq 0 c)))
  end.

End Utils.

(** ** aepsych.models.monotonic_rejection_gp: the data *)

Inductive Likelihood : Type :=
| BernoulliLikelihood
| GaussianLikelihood
| OtherLikelihood (name : string).

(** [isinstance(likelihood, BernoulliLikelihood)] *)
Definition is_bernoulli (l : Likelihood) : bool :=
  match l with
  | BernoulliLikelihood => true
  | _ => false
  end.

Section Data.

Variables R Kernel : Type.

(** A torch parameter: its value and whether the optimiser may move it. *)
Record TorchParameter : Type := mkParameter {
  value : R;
  requires_grad : bool
}.

(** A mean module with a [constant] parameter. *)
Record Mean : Type := mkMean {
  constant : TorchParameter
}.

(** The attributes of a [MonotonicRejectionGP] instance.  Covariance
    modules are opaque values of type [Kernel]. *)
Record MonotonicRejectionGP : Type := mkModel {
  lb : list R;
  ub : list R;
  dim : nat;
  mean_module : Mean;
  covar_module : Kernel;
  likelihood : Likelihood;
  num_induc : nat;
  monotonic_idxs : list Z;
  num_samples : nat;
  num_rejection_samples : nat;
  fixed_prior_mean : option R;
  inducing_points : Tensor R;
  train_inputs : option (Tensor R);
  train_targets : option (Tensor R)
}.

(** Modelled from the spec: the [Config] of [aepsych.config], which is not
    among the sources.  "A key-value configuration source (section name =
    model class name) providing string/number/list-valued settings with
    explicit fallback defaults."  One optional entry per setting that
    [from_config] reads from the section of the class. *)
Record Config : Type := mkConfig {
  cfg_num_induc : option nat;
  cfg_num_samples : option nat;
  cfg_num_rejection_samples : option nat;
  cfg_lb : option (list R);
  cfg_ub : option (list R);
  cfg_dim : option nat;
  cfg_monotonic_idxs : option (list Z)
}.

(** A posterior over a point set: the number of points and the entries of
    its joint draws, by generator state, draw and point. *)
Record Posterior : Type := mkPosterior {
  npoints : nat;
  draw_entry : nat -> nat -> nat -> R
}.

(** A posterior sample batch, of shape [(length draws, npts, 1)]. *)
Record SampleBatch : Type := mkBatch {
  npts : nat;
  draws : list (list R)
}.

(** The parameter values of a model, by name. *)
Record StateDict : Type := mkStateDict {
  sd_constant : R;
  sd_covar : Kernel
}.

End Data.

Arguments mkPosterior {R} npoints draw_entry.
Arguments mkBatch {R} npts draws.
Arguments mkParameter {R} value requires_grad.
Arguments mkMean {R} constant.

(** Collaborators outside the repository (botorch, gpytorch) and the
    mean-and-covariance factory, whose results depend on the model. *)
Class Collaborators (R Kernel : Type) : Type := {
  (** Entry [j] of the [i]-th point of [draw_sobol_samples] over the bounds,
      for a generator state. *)
  sobol_point : list R -> list R -> nat -> nat -> nat -> R;
  (** The default covariance of lines 118-139: a scaled RBF kernel with its
      priors, built from the bounds and the dimension. *)
  default_covar : list R -> list R -> nat -> Kernel;
  (** [fit_gpytorch_model]: the values the optimiser reaches for the
      learnable parameters of a model whose training data are set. *)
  fitted_constant : MonotonicRejectionGP R Kernel -> R;
  fitted_covar : MonotonicRejectionGP R Kernel -> Kernel;
  (** Entry of the [k]-th joint draw at the [j]-th point, for the posterior
      of a model over a point set and a generator state. *)
  posterior_draw :
    MonotonicRejectionGP R Kernel -> Tensor R -> nat -> nat -> nat -> R;
  (** The factory that the configuration names, applied to it. *)
  mean_covar_factory : Config R -> Mean R * Kernel
}.

(** ** aepsych.models.monotonic_rejection_gp: the operations *)

Section Operations.

Context {R Kernel : Type} {Num : Numerics R} {Col : Collaborators R Kernel}.

#[local] Abbreviation Model := (MonotonicRejectionGP R Kernel).

(** [draw_sobol_samples(bounds, n, q=1).squeeze(1)]: [n] points of the
    dimension of the bounds. *)
Definition draw_sobol_samples (lb ub : list R) (n : nat) : M (Tensor R) :=
  seed <- next_seed ;;
  ret (T2 (length lb)
          (map (fun i => map (sobol_point lb ub seed i) (seq 0 (length lb)))
               (seq 0 n))).

(** *** Lines 289-293 *)

Definition _augment_with_deriv_index (X : Tensor R) (indx : Z)
  : Result (Tensor R) :=
  let? n := shape0 X in
  torch_cat X (T2 1 (repeat [of_int indx] n)) 1.

(** *** Lines 54-148

    The variational distribution and strategy of lines 97-105 and 141 are
    gpytorch objects that no method below reads but through the posterior;
    they are part of what [posterior_draw] stands for. *)

Definition __init__
    (monotonic_idxs : list Z) (lb ub : list R) (dim : option nat)
    (mean_module : option (Mean R)) (covar_module : option Kernel)
    (likelihood : option Likelihood) (fixed_prior_mean : option R)
    (num_induc num_samples num_rejection_samples : option nat)
  : M Model :=
  let num_induc := match num_induc with Some n => n | None => 25 end in
  let num_samples := match num_samples with Some n => n | None => 250 end in
  let num_rejection_samples :=
    match num_rejection_samples with Some n => n | None => 5000 end in
  b <- lift (_process_bounds lb ub dim) ;;
  let '(lb, ub, dim) := b in
  let likelihood :=
    match likelihood with Some l => l | None => BernoulliLikelihood end in
  inducing_points <- draw_sobol_samples lb ub num_induc ;;
  inducing_points_aug <- lift (_augment_with_deriv_index inducing_points 0) ;;
  let mean_module :=
    match mean_module with
    | Some m => m
    | None => mkMean (mkParameter (of_int 0) true)
    end in
  let fixed_prior_mean :=
    match fixed_prior_mean with
    | Some p => Some (if is_bernoulli likelihood then norm_ppf p else p)
    | None => None
    end in
  let mean_module :=
    match fixed_prior_mean with
    | Some p => mkMean (mkParameter p false)
    | None => mean_module
    end in
  let covar_module :=
    match covar_module with
    | Some k => k
    | None => default_covar lb ub dim
    end in
  (* AEPsychModel.__init__ processes the bounds again *)
  b <- lift (_process_bounds lb ub (Some dim)) ;;
  let '(lb, ub, dim) := b in
  ret (mkModel lb ub dim mean_module covar_module likelihood
         num_induc monotonic_idxs num_samples num_rejection_samples
         fixed_prior_mean inducing_points None None).

(** *** Lines 164-220 *)

(** [set_train_data] of the base class (base.py, lines 267-275). *)
Definition set_train_data (self : Model) (x y : Tensor R) : Model :=
  mkModel (lb self) (ub self) (dim self)
    (mean_module self) (covar_module self) (likelihood self)
    (num_induc self) (monotonic_idxs self)
    (num_samples self) (num_rejection_samples self)
    (fixed_prior_mean self) (inducing_points self)
    (Some x) (Some y).

Definition with_parameters (self : Model)
    (c : TorchParameter R) (k : Kernel) : Model :=
  mkModel (lb self) (ub self) (dim self)
    (mkMean c) k (likelihood self)
    (num_induc self) (monotonic_idxs self)
    (num_samples self) (num_rejection_samples self)
    (fixed_prior_mean self) (inducing_points self)
    (train_inputs self) (train_targets self).

Definition state_dict (self : Model) : StateDict R Kernel :=
  mkStateDict (value (constant (mean_module self))) (covar_module self).

(** [load_state_dict] copies the values; it leaves [requires_grad] alone. *)
Definition load_state_dict (self : Model) (sd : StateDict R Kernel) : Model :=
  with_parameters self
    (mkParameter (sd_constant sd)
                 (requires_grad (constant (mean_module self))))
    (sd_covar sd).

(** [fit_gpytorch_model(mll)]: the optimiser moves the parameters that
    require a gradient and no other. *)
Definition fit_gpytorch_model (self : Model) : Model :=
  let c := constant (mean_module self) in
  with_parameters self
    (if requires_grad c then mkParameter (fitted_constant self) true else c)
    (fitted_covar self).

Definition _set_model (self : Model)
    (train_x train_y : Tensor R)
    (model_state_dict : option (StateDict R Kernel)) : M Model :=
  train_x_aug <- lift (_augment_with_deriv_index train_x 0) ;;
  let self := set_train_data self train_x_aug train_y in
  let self :=
    match model_state_dict with
    | Some sd => load_state_dict self sd
    | None => self
    end in
  ret (fit_gpytorch_model self).

Definition fit (self : Model) (train_x train_y : Tensor R) : M Model :=
  _set_model self train_x train_y None.

Definition update (self : Model)
    (train_x train_y : Tensor R) (warmstart : bool) : M Model :=
  let model_state_dict :=
    if warmstart then Some (state_dict self) else None in
  _set_model self train_x train_y model_state_dict.

(** *** Lines 295-300 *)

(** The body of the loop, from the block accumulated so far. *)
Definition constraint_step (self : Model)
    (acc : Result (Tensor R)) (i : Z) : Result (Tensor R) :=
  let? deriv_cp := acc in
  let? induc_i :=
    _augment_with_deriv_index (inducing_points self) (i + 1) in
  torch_cat deriv_cp induc_i 0.

Definition _get_deriv_constraint_points (self : Model) : Result (Tensor R) :=
  fold_left (constraint_step self) (monotonic_idxs self) (Ok empty_tensor).

(** *** The rejection sampler *)

(** [self.posterior(x_aug)] *)
Definition posterior (self : Model) (x_aug : Tensor R)
  : Result (Posterior R) :=
  let? n := shape0 x_aug in
  Ok (mkPosterior n (posterior_draw self x_aug)).

(** [posterior.rsample(torch.Size([k]))]: [k] joint draws in one batch. *)
Definition rsample (p : Posterior R) (k : nat) : M (SampleBatch R) :=
  seed <- next_seed ;;
  ret (mkBatch (npoints p)
         (map (fun i => map (draw_entry p seed i) (seq 0 (npoints p)))
              (seq 0 k))).

(** Does a draw satisfy the sign constraint at every constrained index? *)
Definition monotone_at (constrained_idx : list nat) (d : list R) : bool :=
  forallb (fun i => match nth_error d i with
                    | Some x => geb x (of_int 0)
                    | None => false
                    end) constrained_idx.

Definition shortfall_message : string :=
  "Not enough feasible samples; returning all accepted samples.".

(** Modelled from the spec: [RejectionSampler] of
    [aepsych.acquisition.rejection_sampler], which is not among the sources.
    "Draw num_rejection_samples joint samples from the posterior in one
    batch.  For each draw, test whether all values at constrained_idx are
    >= 0.  Collect indices of passing draws; if fewer than num_samples pass,
    emit a warning and return all that passed; otherwise return the first
    num_samples passing draws, each sample being a vector over all supplied
    augmented points." *)
Definition RejectionSampler
    (num_samples num_rejection_samples : nat) (constrained_idx : list nat)
    (p : Posterior R) : M (SampleBatch R) :=
  samples <- rsample p num_rejection_samples ;;
  let passing := filter (monotone_at constrained_idx) (draws samples) in
  if length passing <? num_samples then
    warn shortfall_message ;;;
    ret (mkBatch (npts samples) passing)
  else
    ret (mkBatch (npts samples) (firstn num_samples passing)).

(** [samples[:, :n, 0]] *)
Definition slice_points (s : SampleBatch R) (n : nat) : Tensor R :=
  T2 (Nat.min n (npts s)) (map (firstn n) (draws s)).

(** *** Lines 222-265 *)

Definition rejection_ratio : nat := 20.

Definition ratio_message : string :=
  "num_rejection_samples should be at least 20 times greater than num_samples.".

(** The arguments of [sample] after lines 236-239. *)
Definition resolve (given : option nat) (stored : nat) : nat :=
  match given with
  | Some n => n
  | None => stored
  end.

Definition sample (self : Model) (X : Tensor R)
  : option nat -> option nat -> M (Tensor R) :=
  let self_num_samples := num_samples self in
  let self_num_rejection_samples := num_rejection_samples self in
  fun num_samples num_rejection_samples =>
  let num_samples := resolve num_samples self_num_samples in
  let num_rejection_samples :=
    resolve num_rejection_samples self_num_rejection_samples in
  (if num_rejection_samples <? num_samples * rejection_ratio
   then warn ratio_message else ret tt) ;;;
  n <- lift (shape0 X) ;;
  x_aug <- lift (_augment_with_deriv_index X 0) ;;
  deriv_cp <- lift (_get_deriv_constraint_points self) ;;
  x_aug <- lift (torch_cat x_aug deriv_cp 0) ;;
  rows_aug <- lift (shape0 x_aug) ;;
  rows_X <- lift (shape0 X) ;;
  if negb (rows_aug =?
           rows_X + length (list_mul (monotonic_idxs self) (num_induc self)))
  then raise (AssertionError EmptyString)
  else
    let constrained_idx := seq n (rows_aug - n) in
    post <- lift (posterior self x_aug) ;;
    samples <- RejectionSampler num_samples num_rejection_samples
                 constrained_idx post ;;
    ret (slice_points samples n).

(** *** Lines 267-287 *)

Definition predict (self : Model) (X : Tensor R)
    (probability_space : bool) : M (Tensor R * Tensor R) :=
  samples_f <- sample self X None None ;;
  m <- lift (reduce_dim0 col_mean samples_f) ;;
  let mean := squeeze m in
  v <- lift (reduce_dim0 col_var samples_f) ;;
  let variance := squeeze (tmap (fun x => clamp_min x (of_int 0)) v) in
  if probability_space then
    ret (promote_0d (tmap norm_cdf mean), promote_0d (tmap norm_cdf variance))
  else
    ret (mean, variance).

(** *** Lines 302-335 *)

(** [config.get*(classname, name, fallback=...)] *)
Definition config_get {A} (entry : option A) (fallback : A) : A :=
  match entry with
  | Some v => v
  | None => fallback
  end.

(** [config.get*(classname, name)], without a fallback. *)
Definition config_require {A} (entry : option A) (name : string) : Result A :=
  match entry with
  | Some v => Ok v
  | None => Raise (RuntimeError ("No option '" ++ name ++ "' in section"))
  end.

Definition from_config (config : Config R) : M Model :=
  let num_induc := config_get (cfg_num_induc config) 25 in
  let num_samples := config_get (cfg_num_samples config) 250 in
  let num_rejection_samples :=
    config_get (cfg_num_rejection_samples config) 5000 in
  lb <- lift (config_require (cfg_lb config) "lb") ;;
  ub <- lift (config_require (cfg_ub config) "ub") ;;
  let dim := cfg_dim config in
  let '(mean, covar) := mean_covar_factory config in
  let monotonic_idxs := config_get (cfg_monotonic_idxs config) [(-1)%Z] in
  __init__ monotonic_idxs lb ub dim (Some mean) (Some covar) None None
    (Some num_induc) (Some num_samples) (Some num_rejection_samples).

(** The invariant that [__init__] establishes and [fit] and [update] keep:
    the inducing points are [num_induc] rows of [dim] entries. *)
Definition constructed (self : Model) : bool :=
  match inducing_points self with
  | T2 c pts =>
      (c =? dim self) && (length pts =? num_induc self)
      && forallb (fun p => length p =? c) pts
  | _ => false
  end.

(** The rows the constraint block is made of: one copy of the inducing
    points per monotonic index [i], tagged [i + 1]. *)
Definition tagged_blocks (pts : list (list R)) (idxs : list Z)
  : list (list R) :=
  flat_map (fun i => map (fun p => p ++ [of_int (i + 1)]) pts) idxs.

(** The rows of a tensor of rank 2; a tensor of shape [(0,)] has none. *)
Definition tensor_rows (t : Tensor R) : list (list R) :=
  match t with
  | T2 _ rows => rows
  | _ => []
  end.

(** *** What a call of [sample] works on

    The point set handed to the posterior, the joint draws of one batch and
    those of them that pass the rejection test. *)

Definition augmented_points (self : Model) (c : nat) (rows : list (list R))
  : Tensor R :=
  T2 (c + 1)
     (map (fun r => r ++ [of_int 0]) rows
      ++ tagged_blocks (tensor_rows (inducing_points self))
                       (monotonic_idxs self)).

Definition posterior_batch (self : Model) (x_aug : Tensor R)
    (seed k : nat) : list (list R) :=
  map (fun i => map (posterior_draw self x_aug seed i)
                    (seq 0 (length (tensor_rows x_aug))))
      (seq 0 k).

Definition passing_draws (self : Model) (c : nat) (rows : list (list R))
    (seed k : nat) : list (list R) :=
  filter
    (monotone_at
       (seq (length rows) (num_induc self * length (monotonic_idxs self))))
    (posterior_batch self (augmented_points self c rows) seed k).

(** The log after the check of lines 241-245. *)
Definition after_ratio_check (S0 R0 : nat) (w : World) : World :=
  if R0 <? S0 * rejection_ratio
  then mkWorld (rng w) (warnings w ++ [UserWarning ratio_message])
  else w.

(** An exception other than an [AssertionError]. *)
Definition not_assertion (e : exn) : Prop :=
  forall msg, e <> AssertionError msg.

(** The warnings a call of [sample] adds to the log. *)
Definition new_warnings (before after : World) : list Warning :=
  skipn (length (warnings before)) (warnings after).

End Operations.

(** ** aepsych.models.base *)

(** The abstract methods and the attributes that the query methods of
    [AEPsychModel] use. *)
Class AEPsychModel (R Self : Type) : Type := {
  model_lb : Self -> list R;
  model_ub : Self -> list R;
  model_dim : Self -> nat;
  model_predict : Self -> Tensor R -> bool -> M (Tensor R * Tensor R);
  model_sample : Self -> Tensor R -> nat -> M (Tensor R)
}.

(** What the query methods take from numpy, scipy, torch and
    [aepsych.utils].  [NdArray] stands for arrays of any rank. *)
Class QueryNumerics (R NdArray : Type) : Type := {
  mul : R -> R -> R;
  sub : R -> R -> R;
  halve : R -> R;
  neg : R -> R;
  one_half : R;
  (** [make_scaled_sobol(lb, ub, n, seed=0)] *)
  make_scaled_sobol : list R -> list R -> nat -> Tensor R;
  (** [d[torch.where(fmean == torch.max(fmean))[0][0]]], and with [min] *)
  row_at_max : Tensor R -> Tensor R -> Result (list R);
  row_at_min : Tensor R -> Tensor R -> Result (list R);
  (** [minimize(f, x0, method="Powell", bounds=bounds)]: [(a.fun, a.x)] *)
  powell_minimize :
    (list R -> M (Tensor R)) -> list R -> list (R * R) -> M (R * list R);
  (** [dim_grid(lb, ub, dim, gridsize)] *)
  utils_dim_grid : list R -> list R -> nat -> nat -> Tensor R;
  (** [int(grid.shape[0] ** (1 / grid.shape[1]))] *)
  grid_size : Tensor R -> Result nat;
  linspace : R -> R -> nat -> list R;
  (** [fmean.reshape(gridsize, ..., gridsize)], with [dim] factors *)
  reshape_mean : Tensor R -> nat -> nat -> Result NdArray;
  (** [torch.tensor(1 / np.gradient(fmean, coords, axis))] *)
  taylor_jnd : NdArray -> list R -> Z -> Result NdArray;
  (** [torch.clip(torch.tensor(get_jnd_multid(fmean, coords, axis)), 0, inf)] *)
  step_jnd : NdArray -> list R -> Z -> Result NdArray;
  (** the same two over the reshaped samples, lines 244-256 *)
  taylor_jnd_samples :
    Tensor R -> nat -> nat -> nat -> list R -> Z -> Result NdArray;
  step_jnd_samples : Tensor R -> nat -> nat -> list R -> Z -> Result NdArray;
  (** [torch.clip(torch.quantile(jnds, q, axis=0), 0, inf)] *)
  clipped_quantile : NdArray -> R -> NdArray
}.

Section Base.

Context {R NdArray Self : Type}.
Context {Num : Numerics R} {QNum : QueryNumerics R NdArray}.
Context {Mdl : AEPsychModel R Self}.

(** The value [get_jnd] returns: the mean JND, or median, lower and upper
    of its posterior. *)
Inductive JndResult : Type :=
| JndMean (jnd : NdArray)
| JndInterval (median lower upper : NdArray).

Definition unknown_extremum_message (extremum_type : string) : string :=
  "Unknown extremum type: '" ++ extremum_type ++ "'! Valid types: 'min', 'max' ".

Definition unknown_method_message (method : string) : string :=
  "Unknown method " ++ method ++ "!".

(** [1 - None] *)
Definition none_operand_message : string :=
  "unsupported operand type(s) for -: 'int' and 'NoneType'".

(** *** Lines 73-108 *)

Definition _get_extremum (self : Self) (extremum_type : string)
    (n_samples : nat) : M (R * list R) :=
  let signed_model (sign : Z) (x : list R) : M (Tensor R) :=
    p <- model_predict self (T2 (length x) [x]) false ;;
    ret (tmap (mul (of_int sign)) (fst p)) in
  let bounds := combine (model_lb self) (model_ub self) in
  let d := make_scaled_sobol (model_lb self) (model_ub self) n_samples in
  p <- model_predict self d false ;;
  let fmean := fst p in
  if (extremum_type =? "max")%string then
    estimate <- lift (row_at_max d fmean) ;;
    a <- powell_minimize (signed_model (-1)%Z) estimate bounds ;;
    ret (neg (fst a), snd a)
  else if (extremum_type =? "min")%string then
    estimate <- lift (row_at_min d fmean) ;;
    a <- powell_minimize (signed_model 1%Z) estimate bounds ;;
    ret (fst a, snd a)
  else
    raise (RuntimeError (unknown_extremum_message extremum_type)).

Definition get_max (self : Self) : M (R * list R) :=
  _get_extremum self "max" 1000.

Definition get_min (self : Self) : M (R * list R) :=
  _get_extremum self "min" 1000.

(** *** Lines 264-265 *)
Definition dim_grid (self : Self) (gridsize : nat) : Tensor R :=
  utils_dim_grid (model_lb self) (model_ub self) (model_dim self) gridsize.

(** *** Lines 171-262 *)

Definition get_jnd (self : Self) (grid : option (Tensor R))
    (cred_level : option R) (intensity_dim : Z) (confsamps : nat)
    (method : string) : M JndResult :=
  let grid := match grid with Some g => g | None => dim_grid self 30 end in
  gridsize <- lift (grid_size grid) ;;
  lo <- lift (py_index (model_lb self) intensity_dim) ;;
  hi <- lift (py_index (model_ub self) intensity_dim) ;;
  let coords := linspace lo hi gridsize in
  (* lines 219-236: [Some] is a value returned from inside the branch *)
  returned <-
    match cred_level with
    | None =>
        p <- model_predict self grid false ;;
        fmean <- lift (reshape_mean (fst p) gridsize (model_dim self)) ;;
        if (method =? "taylor")%string then
          j <- lift (taylor_jnd fmean coords intensity_dim) ;;
          ret (Some (JndMean j))
        else if (method =? "step")%string then
          j <- lift (step_jnd fmean coords intensity_dim) ;;
          ret (Some (JndMean j))
        else ret None
    | Some _ => ret None
    end ;;
  match returned with
  | Some j => ret j
  | None =>
      (* line 238: [alpha = 1 - cred_level] *)
      match cred_level with
      | None => raise (TypeError none_operand_message)
      | Some cred =>
          let alpha := sub (of_int 1) cred in
          let qlower := halve alpha in
          let qupper := sub (of_int 1) (halve alpha) in
          fsamps <- model_sample self grid confsamps ;;
          jnds <-
            (if (method =? "taylor")%string then
               lift (taylor_jnd_samples fsamps confsamps gridsize
                       (model_dim self) coords intensity_dim)
             else if (method =? "step")%string then
               lift (step_jnd_samples fsamps gridsize (model_dim self)
                       coords intensity_dim)
             else raise (RuntimeError (unknown_method_message method))) ;;
          let upper := clipped_quantile jnds qupper in
          let lower := clipped_quantile jnds qlower in
          let median := clipped_quantile jnds one_half in
          ret (JndInterval median lower upper)
      end
  end.

End Base.

(** [MonotonicRejectionGP] is an [AEPsychModel]. *)
#[export] Instance MonotonicRejectionGP_AEPsychModel
    {R Kernel : Type} {Num : Numerics R} {Col : Collaborators R Kernel}
  : AEPsychModel R (MonotonicRejectionGP R Kernel) := {
  model_lb := @lb R Kernel;
  model_ub := @ub R Kernel;
  model_dim := @dim R Kernel;
  model_predict := predict;
  model_sample := fun self x n => sample self x (Some n) None
}.

(** ** An integer-valued instance of the collaborators

    It runs the definitions on concrete inputs.  Draw [k] at point [j] is
    [j - k] for the query rows and [1 - k] for the constraint rows, so the
    first two draws of a batch pass the rejection test and the later ones
    fail it. *)
Module IntInstance.

Definition zsum (l : list Z) : Z := fold_right Z.add 0%Z l.

Definition numerics : Numerics Z := {|
  of_int := fun z => z;
  geb := Z.geb;
  col_mean := fun l => (zsum l / Z.of_nat (length l))%Z;
  col_var := fun l => (zsum (map (fun x => x * x) l) / Z.of_nat (length l))%Z;
  clamp_min := Z.max;
  norm_cdf := fun x => x;
  norm_ppf := fun x => (x - 50)%Z
|}.

Definition collaborators : Collaborators Z unit := {|
  sobol_point := fun lb ub seed i j => (nth j lb 0 + Z.of_nat i)%Z;
  default_covar := fun _ _ _ => tt;
  fitted_constant := fun _ => 7%Z;
  fitted_covar := fun _ => tt;
  posterior_draw := fun self x_aug seed k j =>
    match nth_error (tensor_rows x_aug) j with
    | Some row => if (last row 0 =? 0)%Z
                  then (Z.of_nat j - Z.of_nat k)%Z
                  else (1 - Z.of_nat k)%Z
    | None => 0%Z
    end;
  mean_covar_factory := fun _ => (mkMean (mkParameter 0%Z true), tt)
|}.

Definition world0 : World := mkWorld 0 [].

(** The model of the regression test: bounds [0,0]-[4,4], second coordinate
    monotonic, two inducing points, 3 samples out of 4 draws, prior mean 15. *)
Definition regression_model : MonotonicRejectionGP Z unit :=
  mkModel [0%Z; 0%Z] [4%Z; 4%Z] 2 (mkMean (mkParameter 15%Z false)) tt
    GaussianLikelihood 2 [1%Z] 3 4 (Some 15%Z)
    (T2 2 [[0%Z; 0%Z]; [1%Z; 1%Z]]) None None.

(** The model of the classification test: the prior mean 75 is given in
    probability space, and this instance's [norm_ppf] maps it to 25. *)
Definition classification_model : MonotonicRejectionGP Z unit :=
  mkModel [0%Z; 0%Z] [4%Z; 4%Z] 2 (mkMean (mkParameter 25%Z false)) tt
    BernoulliLikelihood 2 [1%Z] 3 4 (Some 25%Z)
    (T2 2 [[0%Z; 0%Z]; [1%Z; 1%Z]]) None None.

(** A configuration that sets the bounds and two inducing points, and the
    model [from_config] builds from it. *)
Definition default_idxs_config : Config Z :=
  mkConfig (Some 2) None None (Some [0%Z; 0%Z]) (Some [4%Z; 4%Z]) None None.

Definition default_idxs_model : MonotonicRejectionGP Z unit :=
  mkModel [0%Z; 0%Z] [4%Z; 4%Z] 2 (mkMean (mkParameter 0%Z true)) tt
    BernoulliLikelihood 2 [(-1)%Z] 250 5000 None
    (T2 2 [[0%Z; 0%Z]; [1%Z; 1%Z]]) None None.

Definition train_x : Tensor Z := T2 2 [[0; 0]; [1; 1]; [2; 2]]%Z.
Definition train_y : Tensor Z := T2 1 [[1]; [2]; [3]]%Z.

Definition query_numerics : QueryNumerics Z unit := {|
  mul := Z.mul;
  sub := Z.sub;
  halve := fun x => (x / 2)%Z;
  neg := Z.opp;
  one_half := 0%Z;
  make_scaled_sobol := fun lb ub n => T2 (length lb) (repeat lb n);
  row_at_max := fun d _ => Ok (hd [] (tensor_rows d));
  row_at_min := fun d _ => Ok (hd [] (tensor_rows d));
  powell_minimize := fun f x0 _ => ret (0%Z, x0);
  utils_dim_grid := fun lb ub dim gridsize =>
    T2 dim (repeat lb gridsize);
  grid_size := fun g => shape0 g;
  linspace := fun lo hi n => repeat lo n;
  reshape_mean := fun _ _ _ => Ok tt;
  taylor_jnd := fun _ _ _ => Ok tt;
  step_jnd := fun _ _ _ => Ok tt;
  taylor_jnd_samples := fun _ _ _ _ _ _ => Ok tt;
  step_jnd_samples := fun _ _ _ _ _ => Ok tt;
  clipped_quantile := fun a _ => a
|}.

End IntInstance.

(** ** aepsych.models.base: the inverse query *)

(** What [inv_query] takes from torch besides the query numerics. *)
Class InverseNumerics (R : Type) : Type := {
  (** [torch.abs(t - y)], entry by entry *)
  abs_diff : Tensor R -> R -> Tensor R
}.

Section InverseQuery.

Context {R NdArray Self : Type}.
Context {Num : Numerics R} {QNum : QueryNumerics R NdArray}.
Context {INum : InverseNumerics R} {Mdl : AEPsychModel R Self}.

(** The position that index [i] names in a sequence of [n] entries, negative
    indices counted from the end. *)
Definition position (n : nat) (i : Z) : option nat :=
  let j := if (i <? 0)%Z then (i + Z.of_nat n)%Z else i in
  if (j <? 0)%Z then None
  else if (j <? Z.of_nat n)%Z then Some (Z.to_nat j)
  else None.

(** [l] with the entry at position [p] replaced. *)
Fixpoint replace_at {A} (l : list A) (p : nat) (v : A) : list A :=
  match l, p with
  | [], _ => []
  | _ :: t, 0 => v :: t
  | x :: t, S p' => x :: replace_at t p' v
  end.

(** [t[i] = v] on a tensor of rank 1. *)
Definition py_setitem {A} (l : list A) (i : Z) (v : A) : Result (list A) :=
  match position (length l) i with
  | Some p => Ok (replace_at l p v)
  | None => Raise (IndexError "index out of range")
  end.

(** The body of the loop of lines 149-151, from the bounds so far. *)
Definition lock_step (acc : Result (list R * list R)) (entry : Z * R)
  : Result (list R * list R) :=
  let? b := acc in
  let? query_lb := py_setitem (fst b) (fst entry) (snd entry) in
  let? query_ub := py_setitem (snd b) (fst entry) (snd entry) in
  Ok (query_lb, query_ub).

(** Lines 146-151: the bounds of the slice.  [locked_dims] lists the items
    of the mapping in the order of its keys. *)
Definition lock_bounds (lb ub : list R) (locked_dims : list (Z * R))
  : Result (list R * list R) :=
  fold_left lock_step locked_dims (Ok (lb, ub)).

(** [t.item()] *)
Definition item (t : Tensor R) : Result R :=
  match t with
  | T0 x => Ok x
  | T1 [x] => Ok x
  | T2 _ [[x]] => Ok x
  | _ => Raise (RuntimeError
                  "a Tensor with more than 1 element cannot be converted to Scalar")
  end.

(** *** Lines 117-169 *)

Definition inv_query (self : Self) (y : R) (locked_dims : list (Z * R))
    (probability_space : bool) (n_samples : nat) : M (R * list R) :=
  let model_distance (x : list R) : M (Tensor R) :=
    p <- model_predict self (T2 (length x) [x]) probability_space ;;
    ret (abs_diff (fst p) y) in
  b <- lift (lock_bounds (model_lb self) (model_ub self) locked_dims) ;;
  let query_lb := fst b in
  let query_ub := snd b in
  let d := make_scaled_sobol query_lb query_ub n_samples in
  let bounds := combine query_lb query_ub in
  p <- model_predict self d probability_space ;;
  let fmean := fst p in
  let f := abs_diff fmean y in
  estimate <- lift (row_at_min d f) ;;
  a <- powell_minimize model_distance estimate bounds ;;
  p <- model_predict self (T2 (length (snd a)) [snd a]) probability_space ;;
  val <- lift (item (fst p)) ;;
  ret (val, snd a).

(** The value that the items of [locked_dims] leave at position [p] of a
    sequence of [n] entries: that of the last item naming it, if any. *)
Definition locked_value (n : nat) (locked_dims : list (Z * R)) (p : nat)
  : option R :=
  fold_left
    (fun (found : option R) (entry : Z * R) =>
       match position n (fst entry) with
       | Some q => if q =? p then Some (snd entry) else found
       | None => found
       end)
    locked_dims None.

End InverseQuery.


(** ** The integer-valued instance, for the inverse query *)
Module IntQueries.

Import IntInstance.

Definition inverse_numerics : InverseNumerics Z := {|
  abs_diff := fun t y => tmap (fun x => Z.abs (x - y)) t
|}.

(** A configuration that sets the bounds and nothing else, and the model
    [from_config] builds from it. *)
Definition bounds_only_config : Config Z :=
  mkConfig None None None (Some [0%Z; 0%Z]) (Some [4%Z; 4%Z]) None None.

Definition bounds_only_model : MonotonicRejectionGP Z unit :=
  match fst (from_config (Num := numerics) (Col := collaborators)
               bounds_only_config world0) with
  | Ok m => m
  | Raise _ => default_idxs_model
  end.

End IntQueries.

(** * Properties *)

(** ** Lists and tensors *)

Section TensorFacts.

Context {R : Type}.

Lemma zip_rows_repeat (rows : list (list R)) (x : R) :
  zip_rows rows (repeat [x] (length rows)) = map (fun r => r ++ [x]) rows.
Proof.
  unfold zip_rows.
  induction rows as [|r rows IH]; simpl; [reflexivity|].
  now rewrite IH.
Qed.

Lemma length_flat_map_const {A B} (f : A -> list B) (l : list A) (k : nat) :
  (forall a, length (f a) = k) -> length (flat_map f l) = k * length l.
Proof.
  intros Hf. induction l as [|a l IH]; simpl; [lia|].
  rewrite length_app, Hf, IH. lia.
Qed.

Lemma length_list_mul {A} (l : list A) (k : nat) :
  length (list_mul l k) = length l * k.
Proof.
  unfold list_mul. induction k as [|k IH]; simpl; [lia|].
  rewrite length_app, IH. lia.
Qed.

Lemma forallb_length_app (c : nat) (rows : list (list R)) (x : R) :
  forallb (fun r => length r =? c) rows = true ->
  forallb (fun r => length r =? c + 1) (map (fun r => r ++ [x]) rows) = true.
Proof.
  induction rows as [|r rows IH]; simpl; [reflexivity|].
  intros H. apply andb_true_iff in H as [Hr Hrows].
  apply Nat.eqb_eq in Hr.
  rewrite length_app, Hr, Nat.eqb_refl. simpl. auto.
Qed.

Lemma map_firstn_app (c : nat) (rows : list (list R)) (x : R) :
  forallb (fun r => length r =? c) rows = true ->
  map (firstn c) (map (fun r => r ++ [x]) rows) = rows
  /\ map (skipn c) (map (fun r => r ++ [x]) rows) = map (fun _ => [x]) rows.
Proof.
  induction rows as [|r rows IH]; simpl; [auto|].
  intros H. apply andb_true_iff in H as [Hr Hrows].
  apply Nat.eqb_eq in Hr. destruct (IH Hrows) as [IH1 IH2].
  rewrite IH1, IH2. subst c.
  rewrite firstn_app, Nat.sub_diag, firstn_all, skipn_app, Nat.sub_diag,
    skipn_all. simpl. rewrite app_nil_r. auto.
Qed.

Lemma in_firstn {A} (x : A) (n : nat) (l : list A) :
  In x (firstn n l) -> In x l.
Proof.
  intros H. rewrite <- (firstn_skipn n l). apply in_or_app. now left.
Qed.

Lemma skipn_length_app {A} (l l' : list A) :
  skipn (length l) (l ++ l') = l'.
Proof.
  rewrite skipn_app, skipn_all, Nat.sub_diag. reflexivity.
Qed.

End TensorFacts.

(** ** The model *)

Section ModelFacts.

Context {R Kernel : Type} {Num : Numerics R} {Col : Collaborators R Kernel}.

#[local] Abbreviation Model := (MonotonicRejectionGP R Kernel).

(** [_augment_with_deriv_index] on a tensor of rank 2. *)
Lemma augment_rank2 (c : nat) (rows : list (list R)) (k : Z) :
  _augment_with_deriv_index (T2 c rows) k
  = Ok (T2 (c + 1) (map (fun r => r ++ [of_int k]) rows)).
Proof.
  unfold _augment_with_deriv_index, shape0, torch_cat. simpl.
  rewrite repeat_length, Nat.eqb_refl.
  now rewrite zip_rows_repeat.
Qed.

Lemma cat_rows (c : nat) (r r' : list (list R)) :
  torch_cat (T2 c r) (T2 c r') 0 = Ok (T2 c (r ++ r')).
Proof. unfold torch_cat. simpl. now rewrite Nat.eqb_refl. Qed.

Lemma cat_empty_left (c : nat) (r : list (list R)) :
  torch_cat empty_tensor (T2 c r) 0 = Ok (T2 c r).
Proof. reflexivity. Qed.

Lemma cat_empty_right (c : nat) (r : list (list R)) :
  torch_cat (T2 c r) empty_tensor 0 = Ok (T2 c r).
Proof. reflexivity. Qed.

Lemma constraint_step_rank2 (self : Model) (c : nat) (pts acc : list (list R))
    (i : Z) :
  inducing_points self = T2 c pts ->
  constraint_step self (Ok (T2 (c + 1) acc)) i
  = Ok (T2 (c + 1) (acc ++ map (fun p => p ++ [of_int (i + 1)]) pts)).
Proof.
  intros Hpts. unfold constraint_step. simpl.
  rewrite Hpts, augment_rank2. simpl. apply cat_rows.
Qed.

Lemma constraint_step_empty (self : Model) (c : nat) (pts : list (list R))
    (i : Z) :
  inducing_points self = T2 c pts ->
  constraint_step self (Ok empty_tensor) i
  = Ok (T2 (c + 1) (map (fun p => p ++ [of_int (i + 1)]) pts)).
Proof.
  intros Hpts. unfold constraint_step. simpl.
  rewrite Hpts, augment_rank2. simpl. apply cat_empty_left.
Qed.

Lemma constraint_fold (self : Model) (c : nat) (pts : list (list R)) :
  inducing_points self = T2 c pts ->
  forall (idxs : list Z) (acc : list (list R)),
    fold_left (constraint_step self) idxs (Ok (T2 (c + 1) acc))
    = Ok (T2 (c + 1) (acc ++ tagged_blocks pts idxs)).
Proof.
  intros Hpts. induction idxs as [|i idxs IH]; intros acc.
  - simpl. now rewrite app_nil_r.
  - cbn [fold_left]. rewrite (constraint_step_rank2 self acc i Hpts), IH.
    unfold tagged_blocks. simpl. now rewrite app_assoc.
Qed.

Lemma constraint_points_value (self : Model) (c : nat) (pts : list (list R)) :
  inducing_points self = T2 c pts ->
  _get_deriv_constraint_points self
  = Ok (match monotonic_idxs self with
        | [] => empty_tensor
        | _ :: _ => T2 (c + 1) (tagged_blocks pts (monotonic_idxs self))
        end).
Proof.
  intros Hpts. unfold _get_deriv_constraint_points.
  destruct (monotonic_idxs self) as [|i idxs]; [reflexivity|].
  cbn [fold_left]. rewrite (constraint_step_empty self i Hpts).
  rewrite (constraint_fold self Hpts). reflexivity.
Qed.

Lemma length_tagged_blocks (pts : list (list R)) (idxs : list Z) :
  length (tagged_blocks pts idxs) = length pts * length idxs.
Proof.
  unfold tagged_blocks. apply length_flat_map_const.
  intros i. now rewrite length_map.
Qed.

Lemma constructed_inv (self : Model) :
  constructed self = true ->
  exists pts,
    inducing_points self = T2 (dim self) pts
    /\ length pts = num_induc self
    /\ forallb (fun p => length p =? dim self) pts = true.
Proof.
  unfold constructed. destruct (inducing_points self) as [x|v|c pts];
    try discriminate.
  intros H. apply andb_true_iff in H as [H Hwf].
  apply andb_true_iff in H as [Hc Hn].
  apply Nat.eqb_eq in Hc, Hn. subst c. eauto.
Qed.

(** The constraint block has [num_induc * len(monotonic_idxs)] rows. *)
Lemma constraint_block_rows (self : Model) :
  constructed self = true ->
  exists cp,
    _get_deriv_constraint_points self = Ok cp
    /\ shape0 cp = Ok (num_induc self * length (monotonic_idxs self)).
Proof.
  intros Hc. destruct (constructed_inv self Hc) as (pts & Hpts & Hn & Hwf).
  rewrite (constraint_points_value self Hpts).
  eexists. split; [reflexivity|].
  pose proof (length_tagged_blocks pts (monotonic_idxs self)) as Hlen.
  destruct (monotonic_idxs self) as [|i idxs].
  - unfold shape0. simpl. f_equal. lia.
  - unfold shape0. cbn [shape]. now rewrite Hlen, Hn.
Qed.

(** *** Construction *)

Lemma process_bounds_ok (l u : list R) (od : option nat)
    (l' u' : list R) (d : nat) :
  _process_bounds l u od = Ok (l', u', d) ->
  l' = l /\ u' = u /\ d = length l
  /\ _process_bounds l u (Some d) = Ok (l, u, d).
Proof.
  unfold _process_bounds.
  destruct (length l =? length u); simpl; [|discriminate].
  destruct od as [d0|]; simpl.
  - destruct (d0 =? length l) eqn:Hd; simpl; [|discriminate].
    apply Nat.eqb_eq in Hd.
    destruct (existsb _ _) eqn:Hb; [discriminate|].
    intros H; injection H as <- <- <-. rewrite Hd, Nat.eqb_refl. simpl.
    auto.
  - rewrite Nat.eqb_refl. simpl.
    destruct (existsb _ _) eqn:Hb; [discriminate|].
    intros H; injection H as <- <- <-. rewrite Nat.eqb_refl. simpl.
    auto.
Qed.

(** The value of a successful construction. *)
Lemma init_value
    (idxs : list Z) (l u : list R) (od : option nat)
    (mm : option (Mean R)) (cm : option Kernel) (lik : option Likelihood)
    (fpm : option R) (ni ns nr : option nat) (w w' : World) (m : Model) :
  __init__ idxs l u od mm cm lik fpm ni ns nr w = (Ok m, w') ->
  let lik' := match lik with Some k => k | None => BernoulliLikelihood end in
  let fpm' :=
    match fpm with
    | Some p => Some (if is_bernoulli lik' then norm_ppf p else p)
    | None => None
    end in
  m = mkModel l u (length l)
        (match fpm' with
         | Some p => mkMean (mkParameter p false)
         | None => match mm with
                   | Some m0 => m0
                   | None => mkMean (mkParameter (of_int 0) true)
                   end
         end)
        (match cm with Some k => k | None => default_covar l u (length l) end)
        lik'
        (resolve ni 25) idxs (resolve ns 250) (resolve nr 5000)
        fpm'
        (T2 (length l)
           (map (fun i => map (sobol_point l u (rng w) i) (seq 0 (length l)))
                (seq 0 (resolve ni 25))))
        None None
  /\ w' = mkWorld (S (rng w)) (warnings w).
Proof.
  unfold __init__, bind, lift.
  destruct (_process_bounds l u od) as [[[l' u'] d]|e] eqn:Hb;
    [|discriminate].
  apply process_bounds_ok in Hb as (-> & -> & -> & Hb2).
  unfold draw_sobol_samples, bind, next_seed, ret.
  rewrite augment_rank2, Hb2.
  intros H; inversion H; subst; clear H.
  split; [|reflexivity].
  destruct ni, ns, nr, fpm; reflexivity.
Qed.

Lemma length_sobol_rows (l u : list R) (seed n : nat) :
  forallb (fun p => length p =? length l)
    (map (fun i => map (sobol_point l u seed i) (seq 0 (length l))) (seq 0 n))
  = true.
Proof.
  apply forallb_forall. intros p Hp. apply in_map_iff in Hp as (i & <- & _).
  rewrite length_map, length_seq. apply Nat.eqb_refl.
Qed.

(** [__init__] establishes the invariant. *)
Lemma init_constructed
    (idxs : list Z) (l u : list R) (od : option nat)
    (mm : option (Mean R)) (cm : option Kernel) (lik : option Likelihood)
    (fpm : option R) (ni ns nr : option nat) (w w' : World) (m : Model) :
  __init__ idxs l u od mm cm lik fpm ni ns nr w = (Ok m, w') ->
  constructed m = true.
Proof.
  intros H. apply init_value in H as [-> _].
  unfold constructed. simpl.
  rewrite Nat.eqb_refl, length_map, length_seq, Nat.eqb_refl. simpl.
  apply length_sobol_rows.
Qed.

(** [fit] and [update] keep it. *)
Lemma set_model_constructed (self m : Model) (tx ty : Tensor R)
    (sd : option (StateDict R Kernel)) (w w' : World) :
  _set_model self tx ty sd w = (Ok m, w') ->
  constructed m = constructed self.
Proof.
  unfold _set_model, bind, lift, ret.
  destruct (_augment_with_deriv_index tx 0); [|discriminate].
  intros H; inversion H; subst; clear H.
  destruct sd; reflexivity.
Qed.

End ModelFacts.

(** ** Running [sample] *)

Section SampleFacts.

Context {R Kernel : Type} {Num : Numerics R} {Col : Collaborators R Kernel}.

#[local] Abbreviation Model := (MonotonicRejectionGP R Kernel).

Lemma bind_lift {A B} (r : Result A) (k : A -> M B) (w : World) :
  bind (lift r) k w
  = match r with Ok a => k a w | Raise e => (Raise e, w) end.
Proof. destruct r; reflexivity. Qed.

Ltac lift_step :=
  match goal with
  | |- bind (lift ?r) ?k ?w = _ => rewrite (bind_lift r k w)
  end.

Lemma shape0_rank2 (c : nat) (rows : list (list R)) :
  shape0 (T2 c rows) = Ok (length rows).
Proof. reflexivity. Qed.

Lemma ratio_check_run {B} (S0 R0 : nat) (k : unit -> M B) (w : World) :
  bind (if R0 <? S0 * rejection_ratio then warn ratio_message else ret tt) k w
  = k tt (after_ratio_check S0 R0 w).
Proof.
  unfold after_ratio_check, bind. destruct (R0 <? S0 * rejection_ratio);
    reflexivity.
Qed.

(** The sampler: one batch drawn, the generator advanced, a warning on a
    shortfall. *)
Lemma rejection_sampler_run (S0 R0 : nat) (idx : list nat) (p : Posterior R)
    (w : World) :
  let batch :=
    map (fun i => map (draw_entry p (rng w) i) (seq 0 (npoints p)))
        (seq 0 R0) in
  let passing := filter (monotone_at idx) batch in
  RejectionSampler S0 R0 idx p w
  = (Ok (mkBatch (npoints p) (firstn S0 passing)),
     mkWorld (S (rng w))
       (warnings w ++ if length passing <? S0
                      then [UserWarning shortfall_message] else [])).
Proof.
  intros batch passing. unfold RejectionSampler, rsample, bind, next_seed, ret.
  simpl. fold batch. fold passing.
  destruct (length passing <? S0) eqn:Hlt.
  - unfold warn. simpl. rewrite firstn_all2; [reflexivity|].
    apply Nat.ltb_lt in Hlt. lia.
  - now rewrite app_nil_r.
Qed.

Lemma sample_points (self : Model) (rows : list (list R)) :
  constructed self = true ->
  exists cp,
    _get_deriv_constraint_points self = Ok cp
    /\ torch_cat (T2 (dim self + 1) (map (fun r => r ++ [of_int 0]) rows))
         cp 0
       = Ok (augmented_points self (dim self) rows).
Proof.
  intros Hc. destruct (constructed_inv self Hc) as (pts & Hpts & Hn & Hwf).
  rewrite (constraint_points_value self Hpts).
  unfold augmented_points. rewrite Hpts. simpl.
  destruct (monotonic_idxs self) as [|i idxs]; eexists; split;
    try reflexivity.
  - rewrite cat_empty_right. unfold tagged_blocks. simpl.
    now rewrite app_nil_r.
  - apply cat_rows.
Qed.

Lemma shape0_augmented_points (self : Model) (c : nat)
    (rows : list (list R)) :
  constructed self = true ->
  shape0 (augmented_points self c rows)
  = Ok (length rows + num_induc self * length (monotonic_idxs self)).
Proof.
  intros Hc. destruct (constructed_inv self Hc) as (pts & Hpts & Hn & Hwf).
  unfold augmented_points. rewrite shape0_rank2, Hpts. simpl tensor_rows.
  now rewrite length_app, length_map, length_tagged_blocks, Hn.
Qed.

Lemma rng_after_ratio_check (S0 R0 : nat) (w : World) :
  rng (after_ratio_check S0 R0 w) = rng w.
Proof.
  unfold after_ratio_check. now destruct (R0 <? S0 * rejection_ratio).
Qed.

Lemma warnings_after_ratio_check (S0 R0 : nat) (w : World) :
  warnings (after_ratio_check S0 R0 w)
  = warnings w ++ (if R0 <? S0 * rejection_ratio
                   then [UserWarning ratio_message] else []).
Proof.
  unfold after_ratio_check. destruct (R0 <? S0 * rejection_ratio);
    [reflexivity|]. now rewrite app_nil_r.
Qed.

Lemma length_augmented_rows (self : Model) (c : nat) (rows : list (list R)) :
  constructed self = true ->
  length (tensor_rows (augmented_points self c rows))
  = length rows + num_induc self * length (monotonic_idxs self).
Proof.
  intros Hc. destruct (constructed_inv self Hc) as (pts & Hpts & Hn & Hwf).
  unfold augmented_points. rewrite Hpts. simpl tensor_rows.
  now rewrite length_app, length_map, length_tagged_blocks, Hn.
Qed.

Lemma sample_run (self : Model) (rows : list (list R))
    (oS oR : option nat) (w : World) :
  constructed self = true ->
  let S0 := resolve oS (num_samples self) in
  let R0 := resolve oR (num_rejection_samples self) in
  let n := length rows in
  let passing := passing_draws self (dim self) rows (rng w) R0 in
  sample self (T2 (dim self) rows) oS oR w
  = (Ok (T2 n (map (firstn n) (firstn S0 passing))),
     mkWorld (S (rng w))
       (warnings w
        ++ (if R0 <? S0 * rejection_ratio
            then [UserWarning ratio_message] else [])
        ++ (if length passing <? S0
            then [UserWarning shortfall_message] else []))).
Proof.
  intros Hc S0 R0 n passing.
  destruct (sample_points self rows Hc) as (cp & Hcp & Hcat).
  destruct (constructed_inv self Hc) as (pts & Hpts & Hn & Hwf).
  unfold sample. fold S0. fold R0. 
  rewrite ratio_check_run. cbv beta.
  lift_step. rewrite shape0_rank2. cbv beta iota.
  lift_step. rewrite augment_rank2. cbv beta iota.
  lift_step. rewrite Hcp. cbv beta iota.
  lift_step. rewrite Hcat. cbv beta iota.
  lift_step. rewrite (shape0_augmented_points self (dim self) rows Hc).
  cbv beta iota.
  lift_step. cbv beta iota.
  rewrite length_list_mul. fold n.
  replace (n + num_induc self * length (monotonic_idxs self)
           =? n + length (monotonic_idxs self) * num_induc self)
    with true by (symmetry; apply Nat.eqb_eq; lia).
  change (negb true) with false. cbv iota.
  replace (n + num_induc self * length (monotonic_idxs self) - n)
    with (num_induc self * length (monotonic_idxs self)) by lia.
  lift_step. unfold posterior.
  rewrite (shape0_augmented_points self (dim self) rows Hc). simpl rbind.
  cbv beta iota.
  unfold bind at 1. rewrite rejection_sampler_run.
  unfold ret, slice_points. simpl npoints. simpl npts. simpl draws.
  simpl draw_entry.
  rewrite rng_after_ratio_check, warnings_after_ratio_check.
  unfold passing, passing_draws, posterior_batch.
  rewrite (length_augmented_rows self (dim self) rows Hc). fold n.
  rewrite Nat.min_l by lia. now rewrite <- app_assoc.
Qed.

Ltac run_lift H :=
  match goal with
  | |- context [bind (lift ?r) ?k ?w] =>
      rewrite (bind_lift r k w);
      lazymatch r with
      | Ok _ => idtac
      | _ => destruct r eqn:H
      end;
      cbv beta iota
  end.

(** Whatever the query is, a call ends in an exception right after the
    check of the ratio, or returns with one batch drawn and at most the
    sampler's warning added. *)
Lemma sample_outcome (self : Model) (X : Tensor R) (oS oR : option nat)
    (w : World) :
  let S0 := resolve oS (num_samples self) in
  let R0 := resolve oR (num_rejection_samples self) in
  let w1 := after_ratio_check S0 R0 w in
  (exists e, sample self X oS oR w = (Raise e, w1))
  \/ (exists t tail,
        sample self X oS oR w
        = (Ok t, mkWorld (S (rng w)) (warnings w1 ++ tail))
        /\ (tail = [] \/ tail = [UserWarning shortfall_message])).
Proof.
  intros S0 R0 w1. unfold sample. fold S0. fold R0.
  rewrite ratio_check_run. fold w1. cbv beta.
  run_lift H1; [|eauto].
  run_lift H2; [|eauto].
  run_lift H3; [|eauto].
  run_lift H4; [|eauto].
  run_lift H5; [|eauto].
  run_lift H6.
  destruct (negb _); [left; eexists; reflexivity|].
  run_lift H7; [|eauto].
  right. unfold bind at 1. rewrite rejection_sampler_run.
  unfold ret. unfold w1 at 2. rewrite rng_after_ratio_check.
  do 2 eexists. split; [reflexivity|].
  destruct (_ <? S0); auto.
Qed.

Lemma augment_rows (X xa : Tensor R) (k : Z) (n0 : nat) :
  shape0 X = Ok n0 ->
  _augment_with_deriv_index X k = Ok xa ->
  exists c rows, xa = T2 c rows /\ length rows = n0.
Proof.
  destruct X as [x|v|c rows].
  - discriminate.
  - destruct v as [|x v]; [|discriminate].
    cbv. intros H1 H2. injection H1 as <-. injection H2 as <-.
    now exists 1, [].
  - rewrite augment_rank2, shape0_rank2. intros H1 H2.
    injection H1 as <-. injection H2 as <-.
    do 2 eexists. split; [reflexivity|]. apply length_map.
Qed.

Lemma cat_rank2 (c c' : nat) (r r' : list (list R)) :
  torch_cat (T2 c r) (T2 c' r') 0
  = if c =? c' then Ok (T2 c (r ++ r'))
    else Raise (RuntimeError
                  "Sizes of tensors must match except in dimension 0").
Proof. reflexivity. Qed.

(** When control reaches line 253, the asserted equation holds. *)
Lemma asserted_row_count (self : Model) (X xa cp x_aug : Tensor R) (n0 : nat) :
  constructed self = true ->
  shape0 X = Ok n0 ->
  _augment_with_deriv_index X 0 = Ok xa ->
  _get_deriv_constraint_points self = Ok cp ->
  torch_cat xa cp 0 = Ok x_aug ->
  shape0 x_aug
  = Ok (n0 + length (list_mul (monotonic_idxs self) (num_induc self))).
Proof.
  intros Hc HX Hxa Hcp Hcat.
  destruct (constructed_inv self Hc) as (pts & Hpts & Hn & Hwf).
  destruct (augment_rows X 0 HX Hxa) as (c & rows & -> & Hrows).
  rewrite (constraint_points_value self Hpts) in Hcp.
  injection Hcp as <-. rewrite length_list_mul.
  destruct (monotonic_idxs self) as [|i idxs].
  - rewrite cat_empty_right in Hcat. injection Hcat as <-.
    rewrite shape0_rank2. simpl. f_equal. lia.
  - rewrite cat_rank2 in Hcat.
    destruct (c =? dim self + 1); [|discriminate].
    injection Hcat as <-.
    change (map (fun p => p ++ [of_int (i + 1)]) pts ++ tagged_blocks pts idxs)
      with (tagged_blocks pts (i :: idxs)).
    rewrite shape0_rank2, length_app, length_tagged_blocks, Hn, Hrows.
    f_equal. lia.
Qed.

Lemma shape0_exn (t : Tensor R) (e : exn) :
  shape0 t = Raise e -> not_assertion e.
Proof.
  destruct t; cbv; try discriminate.
  intros H; injection H as <-. discriminate.
Qed.

Lemma torch_cat_exn (a b : Tensor R) (d : nat) (e : exn) :
  torch_cat a b d = Raise e -> not_assertion e.
Proof.
  unfold torch_cat, not_assertion.
  destruct a as [x|[|x v]|c r], b as [y|[|y u]|c' r']; simpl;
    repeat match goal with
           | |- context [if ?b then _ else _] => destruct b
           | |- context [match ?n with 0 => _ | S _ => _ end] => destruct n
           end;
    intros H msg; try discriminate; injection H as <-; discriminate.
Qed.

Lemma augment_exn (X : Tensor R) (k : Z) (e : exn) :
  _augment_with_deriv_index X k = Raise e -> not_assertion e.
Proof.
  unfold _augment_with_deriv_index.
  destruct (shape0 X) as [n|e0] eqn:H0; simpl.
  - apply torch_cat_exn.
  - intros H; injection H as <-. exact (shape0_exn X H0).
Qed.

Lemma sample_never_fails_assertion (self : Model) (X : Tensor R)
    (oS oR : option nat) (w : World) :
  constructed self = true ->
  forall e, fst (sample self X oS oR w) = Raise e -> not_assertion e.
Proof.
  intros Hc e. unfold sample.
  rewrite ratio_check_run. cbv beta.
  run_lift H1; [|simpl; intros E; injection E as <-; exact (shape0_exn X H1)].
  run_lift H2;
    [|simpl; intros E; injection E as <-; exact (augment_exn X 0 H2)].
  run_lift H3.
  2:{ destruct (constructed_inv self Hc) as (pts & Hpts & _).
      rewrite (constraint_points_value self Hpts) in H3. discriminate. }
  run_lift H4;
    [|simpl; intros E; injection E as <-; exact (torch_cat_exn _ _ _ H4)].
  rewrite (asserted_row_count self X Hc H1 H2 H3 H4).
  run_lift H5. run_lift H6. rewrite Nat.eqb_refl.
  change (negb true) with false. cbv iota.
  run_lift H7; [|simpl; intros E; injection E as <-].
  - unfold bind at 1. rewrite rejection_sampler_run. discriminate.
  - unfold posterior in H7.
    destruct (shape0 a2) eqn:H8; [discriminate|].
    simpl in H7. injection H7 as <-. exact (shape0_exn a2 H8).
Qed.

End SampleFacts.

(** * The claims *)

Section Claims.

Context {R Kernel : Type} {Num : Numerics R} {Col : Collaborators R Kernel}.

#[local] Abbreviation Model := (MonotonicRejectionGP R Kernel).

(** C7.  On a points tensor with N rows and C columns,
    [_augment_with_deriv_index] returns a tensor with N rows and C+1
    columns; its first C columns are the input and its last column is the
    derivative index in every row.  The function is pure: it reads neither
    the model nor the interpreter state and returns a new tensor. *)
Theorem augment_appends_tag_column (C : nat) (rows : list (list R)) (k : Z) :
  wf (T2 C rows) = true ->
  exists out,
    _augment_with_deriv_index (T2 C rows) k = Ok (T2 (C + 1) out)
    /\ shape (T2 (C + 1) out) = [length rows; C + 1]
    /\ wf (T2 (C + 1) out) = true
    /\ map (firstn C) out = rows
    /\ map (skipn C) out = map (fun _ => [of_int k]) rows.
Proof.
  intros Hwf. simpl in Hwf.
  exists (map (fun r => r ++ [of_int k]) rows).
  destruct (map_firstn_app C rows (of_int k) Hwf) as [Hfirst Hlast].
  repeat split; auto.
  - apply augment_rank2.
  - simpl. now rewrite length_map.
  - simpl. now apply forallb_length_app.
Qed.

(** C2.  The constraint point set of a model is, for every index i of
    [monotonic_idxs] in turn, the inducing points with the tag i + 1
    appended, one block after the other: [num_induc * len(monotonic_idxs)]
    rows.  For [monotonic_idxs = [1]] and [num_induc = 2] it has two rows,
    each ending in the tag 2. *)
Theorem constraint_points_tagged_blocks (self : Model) :
  constructed self = true ->
  exists cp,
    _get_deriv_constraint_points self = Ok cp
    /\ tensor_rows cp
       = tagged_blocks (tensor_rows (inducing_points self))
                       (monotonic_idxs self)
    /\ shape0 cp = Ok (num_induc self * length (monotonic_idxs self))
    /\ (monotonic_idxs self = [1%Z] -> num_induc self = 2 ->
        exists p q,
          inducing_points self = T2 (dim self) [p; q]
          /\ cp = T2 (dim self + 1) [p ++ [of_int 2]; q ++ [of_int 2]]
          /\ shape cp = [2; dim self + 1]).
Proof.
  intros Hc. destruct (constructed_inv self Hc) as (pts & Hpts & Hn & Hwf).
  rewrite (constraint_points_value self Hpts), Hpts. simpl tensor_rows.
  eexists. split; [reflexivity|].
  destruct (monotonic_idxs self) as [|i idxs] eqn:Hidx.
  - repeat split.
    + unfold shape0. simpl. f_equal. lia.
    + discriminate.
  - repeat split.
    + rewrite shape0_rank2, length_tagged_blocks. now rewrite Hn.
    + intros Hone Htwo. injection Hone as -> ->. rewrite Htwo in Hn.
      destruct pts as [|p [|q [|r pts]]]; try discriminate.
      exists p, q. repeat split.
Qed.

(** C3 (the code departs from it).  A model built by [from_config] from a
    configuration without [monotonic_idxs] gets the fallback [[-1]], and
    line 298 turns the index -1 into the tag -1 + 1 = 0: every constraint
    point carries tag 0, the tag of a function value, and none carries the
    tag of the last dimension. *)
Theorem from_config_default_tags_function_value
    (config : Config R) (w w' : World) (m : Model) :
  cfg_monotonic_idxs config = None ->
  from_config config w = (Ok m, w') ->
  monotonic_idxs m = [(-1)%Z]
  /\ exists cp,
       _get_deriv_constraint_points m = Ok cp
       /\ _augment_with_deriv_index (inducing_points m) 0 = Ok cp
       /\ tensor_rows cp
          = map (fun p => p ++ [of_int 0]) (tensor_rows (inducing_points m)).
Proof.
  intros Hnone. unfold from_config. rewrite Hnone.
  unfold bind at 1, lift.
  destruct (config_require (cfg_lb config) "lb") as [l|e]; [|discriminate].
  unfold bind at 1.
  destruct (config_require (cfg_ub config) "ub") as [u|e]; [|discriminate].
  destruct (mean_covar_factory config) as [mean covar].
  intros Hinit. pose proof (init_constructed _ _ _ _ _ _ _ _ _ _ _ _ Hinit) as Hc.
  apply init_value in Hinit as [Hm _].
  assert (Hidx : monotonic_idxs m = [(-1)%Z]) by (rewrite Hm; reflexivity).
  split; [exact Hidx|].
  destruct (constructed_inv m Hc) as (pts & Hpts & Hn & Hwf).
  rewrite (constraint_points_value m Hpts), Hidx, Hpts, augment_rank2.
  eexists. split; [reflexivity|]. split.
  - unfold tagged_blocks. simpl. now rewrite app_nil_r.
  - unfold tagged_blocks. simpl. now rewrite app_nil_r.
Qed.

(** C10.  In [sample], whenever control reaches the assertion of line 253
    the asserted equation holds: the augmented point set has
    [X.shape[0] + len(monotonic_idxs * num_induc)] rows, the list repetition
    having [len(monotonic_idxs) * num_induc] elements.  No call of [sample]
    ends in an [AssertionError]. *)
Theorem sample_assertion_unreachable (self : Model) (X : Tensor R)
    (oS oR : option nat) (w : World) :
  constructed self = true ->
  (exists cp,
      _get_deriv_constraint_points self = Ok cp
      /\ shape0 cp = Ok (num_induc self * length (monotonic_idxs self)))
  /\ (forall xa cp x_aug n0,
        shape0 X = Ok n0 ->
        _augment_with_deriv_index X 0 = Ok xa ->
        _get_deriv_constraint_points self = Ok cp ->
        torch_cat xa cp 0 = Ok x_aug ->
        shape0 x_aug
        = Ok (n0 + length (list_mul (monotonic_idxs self) (num_induc self))))
  /\ length (list_mul (monotonic_idxs self) (num_induc self))
     = length (monotonic_idxs self) * num_induc self
  /\ (forall msg, fst (sample self X oS oR w) <> Raise (AssertionError msg)).
Proof.
  intros Hc. split; [exact (constraint_block_rows self Hc)|]. split; [|split].
  - intros xa cp x_aug n0 H1 H2 H3 H4.
    exact (asserted_row_count self X Hc H1 H2 H3 H4).
  - apply length_list_mul.
  - intros msg H.
    pose proof (sample_never_fails_assertion self X oS oR w Hc H) as Hn.
    now apply (Hn msg).
Qed.

(** C1.  On a query tensor with n rows, [sample(X, S, R)] returns a batch
    with at most S rows, with exactly S rows when at least S of the R
    posterior draws pass the monotonicity test, and with n columns: each
    returned sample is an accepted draw cut down to the n query rows, the
    entries at the constraint points being dropped. *)
Theorem sample_returns_accepted_query_rows (self : Model)
    (rows : list (list R)) (S0 R0 : nat) (w : World) :
  constructed self = true ->
  let n := length rows in
  let x_aug := augmented_points self (dim self) rows in
  let batch := posterior_batch self x_aug (rng w) R0 in
  let passing := passing_draws self (dim self) rows (rng w) R0 in
  exists out w',
    sample self (T2 (dim self) rows) (Some S0) (Some R0) w
    = (Ok (T2 n out), w')
    /\ length batch = R0
    /\ length out <= S0
    /\ (S0 <= length passing -> length out = S0)
    /\ (length passing < S0 -> length out = length passing)
    /\ out = map (firstn n) (firstn S0 passing)
    /\ Forall (fun r => exists k,
                   k < R0
                   /\ r = map (posterior_draw self x_aug (rng w) k) (seq 0 n))
              out
    /\ shape (T2 n out) = [length out; n].
Proof.
  intros Hc n x_aug batch passing.
  pose proof (sample_run self rows (Some S0) (Some R0) w Hc) as Hrun.
  simpl in Hrun. fold n in Hrun. fold passing in Hrun.
  do 2 eexists. split; [exact Hrun|].
  split; [unfold batch, posterior_batch; now rewrite length_map, length_seq|].
  rewrite length_map, length_firstn.
  split; [lia|]. split; [lia|]. split; [lia|]. split; [reflexivity|].
  split; [|simpl; now rewrite length_map, length_firstn].
  apply Forall_forall. intros r Hr.
  apply in_map_iff in Hr as (d & <- & Hd).
  apply in_firstn in Hd. unfold passing, passing_draws in Hd.
  apply filter_In in Hd as [Hd _]. fold x_aug in Hd.
  unfold posterior_batch in Hd. apply in_map_iff in Hd as (k & <- & Hk).
  apply in_seq in Hk. exists k. split; [lia|].
  unfold x_aug. rewrite (length_augmented_rows self (dim self) rows Hc).
  fold n. fold x_aug.
  rewrite seq_app, map_app, firstn_app, length_map, length_seq, Nat.sub_diag.
  simpl firstn at 2. rewrite app_nil_r.
  apply firstn_all2. rewrite length_map, length_seq. lia.
Qed.

(** C8.  With the stored defaults put in for omitted arguments, [sample]
    emits the warning of lines 243-245 if and only if
    [num_samples * 20 > num_rejection_samples]; the warning does not end the
    call.  On a model and a query of its dimension the call, warning or not,
    draws one batch of [num_rejection_samples] joint draws (the generator
    advances) and returns the first [num_samples] of those that pass the
    rejection test, cut to the query rows; the log gains the ratio warning
    when the condition holds, then the sampler's warning on a shortfall. *)
Theorem sample_ratio_warning_iff (self : Model) (X : Tensor R)
    (oS oR : option nat) (w : World) :
  let S0 := resolve oS (num_samples self) in
  let R0 := resolve oR (num_rejection_samples self) in
  (In (UserWarning ratio_message)
      (new_warnings w (snd (sample self X oS oR w)))
   <-> S0 * 20 > R0)
  /\ (constructed self = true ->
      forall rows, X = T2 (dim self) rows ->
      let n := length rows in
      let batch :=
        posterior_batch self (augmented_points self (dim self) rows)
          (rng w) R0 in
      let passing := passing_draws self (dim self) rows (rng w) R0 in
      length batch = R0
      /\ passing
         = filter
             (monotone_at
                (seq n (num_induc self * length (monotonic_idxs self))))
             batch
      /\ sample self X oS oR w
         = (Ok (T2 n (map (firstn n) (firstn S0 passing))),
            mkWorld (S (rng w))
              (warnings w
               ++ (if R0 <? S0 * 20 then [UserWarning ratio_message] else [])
               ++ (if length passing <? S0
                   then [UserWarning shortfall_message] else [])))).
Proof.
  intros S0 R0. split.
  - assert (Hlog : exists tail,
               new_warnings w (snd (sample self X oS oR w))
               = (if R0 <? S0 * rejection_ratio
                  then [UserWarning ratio_message] else []) ++ tail
               /\ (tail = [] \/ tail = [UserWarning shortfall_message])).
    { unfold new_warnings.
      destruct (sample_outcome self X oS oR w)
        as [(e & ->)|(t & tail & -> & Htail)];
        fold S0; fold R0; simpl snd.
      - exists []. rewrite warnings_after_ratio_check, skipn_length_app.
        rewrite app_nil_r. auto.
      - exists tail. simpl warnings.
        rewrite warnings_after_ratio_check, <- app_assoc, skipn_length_app.
        auto. }
    destruct Hlog as (tail & -> & Htail).
    unfold rejection_ratio.
    destruct (R0 <? S0 * 20) eqn:Hlt.
    + apply Nat.ltb_lt in Hlt. split; [lia|]. intros _. now left.
    + apply Nat.ltb_ge in Hlt. split; [|lia].
      simpl. destruct Htail as [-> | ->]; simpl; [tauto|].
      intros [H|[]]. discriminate H.
  - intros Hc rows -> n batch passing.
    split; [unfold batch, posterior_batch; now rewrite length_map, length_seq|].
    split; [reflexivity|].
    exact (sample_run self rows oS oR w Hc).
Qed.

(** [predict] on a model and a query of its dimension, from the batch
    that [sample] returns. *)
Lemma predict_run (self : Model) (rows : list (list R))
    (probability_space : bool) (w : World) :
  constructed self = true ->
  exists out w',
    sample self (T2 (dim self) rows) None None w
    = (Ok (T2 (length rows) out), w')
    /\ let mean :=
         squeeze (T1 (map (fun j => col_mean (column out j))
                          (seq 0 (length rows)))) in
       let variance :=
         squeeze (tmap (fun x => clamp_min x (of_int 0))
                    (T1 (map (fun j => col_var (column out j))
                             (seq 0 (length rows))))) in
       predict self (T2 (dim self) rows) probability_space w
       = (Ok (if probability_space
              then (promote_0d (tmap norm_cdf mean),
                    promote_0d (tmap norm_cdf variance))
              else (mean, variance)), w').
Proof.
  intros Hc. do 2 eexists. split; [exact (sample_run self rows None None w Hc)|].
  intros mean variance. unfold predict, bind at 1.
  rewrite (sample_run self rows None None w Hc).
  unfold bind, lift, ret. simpl reduce_dim0. cbv beta iota.
  now destruct probability_space.
Qed.

(** C4 (the code departs from it).  For a query of one row, [predict]
    squeezes the one-entry mean and variance down to rank 0: they have
    shape [()], not [(1,)].  With [probability_space=True] the same query
    gets shape [(1,)]. *)
Theorem predict_single_row_has_rank_0 (self : Model) (row : list R)
    (w : World) :
  constructed self = true ->
  exists mean variance w',
    predict self (T2 (dim self) [row]) false w = (Ok (mean, variance), w')
    /\ shape mean = [] /\ shape variance = []
    /\ shape mean <> [1] /\ shape variance <> [1]
    /\ exists pm pv,
         predict self (T2 (dim self) [row]) true w = (Ok (pm, pv), w')
         /\ shape pm = [1] /\ shape pv = [1].
Proof.
  intros Hc.
  destruct (predict_run self [row] false w Hc) as (out & w' & Hs & Hf).
  destruct (predict_run self [row] true w Hc) as (out' & w'' & Hs' & Ht).
  rewrite Hs in Hs'. injection Hs' as <- <-.
  simpl in Hf, Ht.
  do 3 eexists. split; [exact Hf|]. simpl.
  repeat split; try discriminate.
  do 2 eexists. split; [exact Ht|]. simpl. auto.
Qed.

(** C5.  [predict(X, probability_space=True)] returns the mean and the
    variance of [predict(X)], each passed through [norm.cdf] (and
    [promote_0d]): the variance gets the very transform of the mean.  On a
    model and a query of its dimension these are the sample mean and the
    clamped sample variance of the batch that [sample] returns. *)
Theorem predict_probability_space_cdf_on_both (self : Model) (X : Tensor R)
    (w : World) :
  let transform t := promote_0d (tmap norm_cdf t) in
  match predict self X false w with
  | (Ok (mean, variance), w') =>
      predict self X true w = (Ok (transform mean, transform variance), w')
  | (Raise e, w') => predict self X true w = (Raise e, w')
  end
  /\ (constructed self = true ->
      forall rows, X = T2 (dim self) rows ->
      exists out w',
        sample self X None None w = (Ok (T2 (length rows) out), w')
        /\ predict self X true w
           = (Ok (transform
                    (squeeze
                       (T1 (map (fun j => col_mean (column out j))
                                (seq 0 (length rows))))),
                  transform
                    (squeeze
                       (tmap (fun x => clamp_min x (of_int 0))
                          (T1 (map (fun j => col_var (column out j))
                                   (seq 0 (length rows))))))),
              w')).
Proof.
  intros transform. split.
  - unfold predict, bind.
    destruct (sample self X None None w) as [[samples_f|e] w']; [|reflexivity].
    unfold lift.
    destruct (reduce_dim0 col_mean samples_f) as [m|e]; [|reflexivity].
    destruct (reduce_dim0 col_var samples_f) as [v|e]; reflexivity.
  - intros Hc rows ->.
    destruct (predict_run self rows true w Hc) as (out & w' & Hs & Ht).
    exists out, w'. split; [exact Hs|exact Ht].
Qed.


End Claims.

Section BaseClaims.

Context {R NdArray Self : Type}.
Context {Num : Numerics R} {QNum : QueryNumerics R NdArray}.
Context {Mdl : AEPsychModel R Self}.

(** X11.  An unknown extremum type is reported by name, once the coarse
    prediction of line 92 has returned. *)
Lemma get_extremum_unknown_type (self : Self) (extremum_type : string)
    (n_samples : nat) (w w1 : World) (p : Tensor R * Tensor R) :
  (extremum_type =? "max")%string = false ->
  (extremum_type =? "min")%string = false ->
  model_predict self
    (make_scaled_sobol (model_lb self) (model_ub self) n_samples) false w
  = (Ok p, w1) ->
  _get_extremum self extremum_type n_samples w
  = (Raise (RuntimeError (unknown_extremum_message extremum_type)), w1).
Proof.
  intros Hmax Hmin Hp. unfold _get_extremum, bind at 1.
  now rewrite Hp, Hmax, Hmin.
Qed.

(** X12.  With a credible level, an unknown JND method is reported by name,
    once the samples of line 242 have been drawn. *)
Lemma get_jnd_unknown_method_with_cred_level (self : Self)
    (grid : Tensor R) (cred : R) (intensity_dim : Z) (confsamps : nat)
    (method : string) (w w1 : World) (gridsize : nat) (lo hi : R)
    (fsamps : Tensor R) :
  (method =? "taylor")%string = false ->
  (method =? "step")%string = false ->
  grid_size grid = Ok gridsize ->
  py_index (model_lb self) intensity_dim = Ok lo ->
  py_index (model_ub self) intensity_dim = Ok hi ->
  model_sample self grid confsamps w = (Ok fsamps, w1) ->
  get_jnd self (Some grid) (Some cred) intensity_dim confsamps method w
  = (Raise (RuntimeError (unknown_method_message method)), w1).
Proof.
  intros Ht Hs Hg Hlo Hhi Hsamp. unfold get_jnd, bind, lift, ret.
  rewrite Hg, Hlo, Hhi, Hsamp, Ht, Hs. reflexivity.
Qed.

(** C9 (the code departs from it).  Without a credible level, an unknown
    JND method matches neither branch of lines 223-236, so control falls
    through to line 238, where [1 - None] raises a [TypeError] that does not
    name the method; the [RuntimeError] of line 258 is not reached. *)
Theorem get_jnd_unknown_method_without_cred_level (self : Self)
    (grid : option (Tensor R)) (intensity_dim : Z) (confsamps : nat)
    (method : string) (w w1 : World) (gridsize : nat) (lo hi : R)
    (p : Tensor R * Tensor R) (fmean : NdArray) :
  let g := match grid with Some g => g | None => dim_grid self 30 end in
  (method =? "taylor")%string = false ->
  (method =? "step")%string = false ->
  grid_size g = Ok gridsize ->
  py_index (model_lb self) intensity_dim = Ok lo ->
  py_index (model_ub self) intensity_dim = Ok hi ->
  model_predict self g false w = (Ok p, w1) ->
  reshape_mean (fst p) gridsize (model_dim self) = Ok fmean ->
  get_jnd self grid None intensity_dim confsamps method w
  = (Raise (TypeError none_operand_message), w1)
  /\ fst (get_jnd self grid None intensity_dim confsamps method w)
     <> Raise (RuntimeError (unknown_method_message method)).
Proof.
  intros g Ht Hs Hg Hlo Hhi Hp Hr.
  assert (Hrun : get_jnd self grid None intensity_dim confsamps method w
                 = (Raise (TypeError none_operand_message), w1)).
  { unfold get_jnd, bind, lift, ret. fold g.
    rewrite Hg, Hlo, Hhi, Hp, Hr, Ht, Hs. reflexivity. }
  split; [exact Hrun|]. rewrite Hrun. discriminate.
Qed.

End BaseClaims.

(** * The theorems at concrete inputs *)

Section Witnesses.

Import IntInstance.

#[local] Existing Instance numerics.
#[local] Existing Instance collaborators.
#[local] Existing Instance query_numerics.

Lemma augment_appends_tag_column_witness :
  exists out,
    _augment_with_deriv_index (T2 2 [[0; 0]; [1; 1]]%Z) 2 = Ok (T2 3 out)
    /\ map (firstn 2) out = [[0; 0]; [1; 1]]%Z
    /\ map (skipn 2) out = [[2]; [2]]%Z.
Proof.
  destruct (augment_appends_tag_column 2 [[0; 0]; [1; 1]]%Z 2 eq_refl)
    as (out & Hrun & _ & _ & Hfirst & Hlast).
  exists out. auto.
Defined.

Lemma constraint_points_tagged_blocks_witness :
  exists cp,
    _get_deriv_constraint_points regression_model = Ok cp
    /\ shape cp = [2; 3]
    /\ tensor_rows cp = [[0; 0; 2]; [1; 1; 2]]%Z.
Proof.
  destruct (constraint_points_tagged_blocks regression_model eq_refl)
    as (cp & Hcp & Hrows & _ & Hone).
  destruct (Hone eq_refl eq_refl) as (p & q & _ & _ & Hshape).
  exists cp. auto.
Defined.

Lemma from_config_default_tags_function_value_witness :
  exists cp,
    _get_deriv_constraint_points default_idxs_model = Ok cp
    /\ tensor_rows cp = [[0; 0; 0]; [1; 1; 0]]%Z.
Proof.
  destruct (from_config_default_tags_function_value (Num := numerics) (Col := collaborators) 
              default_idxs_config world0 (w' := mkWorld 1 [])
              (m := default_idxs_model) eq_refl eq_refl)
    as (_ & cp & Hcp & _ & Hrows).
  exists cp. auto.
Defined.

Lemma sample_assertion_unreachable_witness :
  shape0 (T2 3 [[0; 0; 0]; [1; 1; 0]; [2; 2; 0]; [0; 0; 2]; [1; 1; 2]]%Z)
  = Ok (3 + length (list_mul [1%Z] 2))
  /\ length (list_mul [1%Z] 2) = 1 * 2
  /\ fst (sample regression_model train_x None None world0)
     <> Raise (AssertionError EmptyString).
Proof.
  destruct (sample_assertion_unreachable regression_model train_x None None
              world0 eq_refl) as (_ & Hrows & Hlen & Hnever).
  split; [|split].
  - exact (Hrows _ _ _ _ eq_refl eq_refl eq_refl eq_refl).
  - exact Hlen.
  - exact (Hnever EmptyString).
Defined.

Lemma sample_returns_accepted_query_rows_witness :
  exists out w',
    sample regression_model train_x (Some 2) (Some 4) world0
    = (Ok (T2 3 out), w')
    /\ length out = 2
    /\ out = [[0; 1; 2]; [-1; 0; 1]]%Z.
Proof.
  destruct (sample_returns_accepted_query_rows regression_model
              [[0; 0]; [1; 1]; [2; 2]]%Z 2 4 world0 eq_refl)
    as (out & w' & Hrun & _ & _ & Hfull & _ & Hout & _).
  exists out, w'. split; [exact Hrun|]. split; [|exact Hout].
  apply Hfull. vm_compute. lia.
Defined.

Lemma sample_ratio_warning_iff_witness :
  In (UserWarning ratio_message)
     (new_warnings world0
        (snd (sample regression_model train_x None None world0)))
  /\ sample regression_model train_x None None world0
     = (Ok (T2 3 [[0; 1; 2]; [-1; 0; 1]]%Z),
        mkWorld 1 [UserWarning ratio_message;
                   UserWarning shortfall_message]).
Proof.
  destruct (sample_ratio_warning_iff regression_model train_x None None
              world0) as (Hiff & Hrun).
  split.
  - apply Hiff. vm_compute. lia.
  - destruct (Hrun eq_refl _ eq_refl) as (_ & _ & Hout). exact Hout.
Defined.

Lemma predict_single_row_has_rank_0_witness :
  exists mean variance w',
    predict regression_model (T2 2 [[1; 1]]%Z) false world0
    = (Ok (mean, variance), w')
    /\ shape mean = [] /\ shape variance = [].
Proof.
  destruct (predict_single_row_has_rank_0 regression_model [1; 1]%Z world0
              eq_refl)
    as (mean & variance & w' & Hrun & Hm & Hv & _).
  exists mean, variance, w'. auto.
Defined.

Lemma predict_probability_space_cdf_on_both_witness :
  exists out w',
    sample regression_model train_x None None world0 = (Ok (T2 3 out), w')
    /\ exists pm pv,
         predict regression_model train_x true world0 = (Ok (pm, pv), w').
Proof.
  destruct (predict_probability_space_cdf_on_both regression_model train_x
              world0) as (_ & Hrun).
  destruct (Hrun eq_refl _ eq_refl) as (out & w' & Hs & Hp).
  exists out, w'. split; [exact Hs|]. eauto.
Defined.


Lemma get_jnd_unknown_method_without_cred_level_witness :
  fst (get_jnd regression_model None None (-1) 500 "foo" world0)
  = Raise (TypeError none_operand_message).
Proof.
  refine (f_equal fst
            (proj1 (get_jnd_unknown_method_without_cred_level
                      regression_model None (-1) 500 "foo" world0
                      eq_refl eq_refl _ _ _ _ _))); reflexivity.
Defined.

End Witnesses.

(** * Further properties of the model *)

Section FitFacts.

Context {R Kernel : Type} {Num : Numerics R} {Col : Collaborators R Kernel}.

#[local] Abbreviation Model := (MonotonicRejectionGP R Kernel).

(** Loading the snapshot that a model gives of itself changes nothing. *)
Lemma load_own_state_dict (self : Model) (x y : Tensor R) :
  load_state_dict (set_train_data self x y) (state_dict self)
  = set_train_data self x y.
Proof.
  destruct self as [l u d [[v g]] k lik ni idxs ns nr fpm pts ti tt].
  reflexivity.
Qed.

(** Whatever the flag, [update] runs as [fit] does. *)
Lemma update_is_fit (self : Model) (train_x train_y : Tensor R)
    (warmstart : bool) (w : World) :
  update self train_x train_y warmstart w = fit self train_x train_y w.
Proof.
  destruct warmstart; [|reflexivity].
  unfold update, fit, _set_model, bind, lift, ret.
  destruct (_augment_with_deriv_index train_x 0) as [x_aug|e]; [|reflexivity].
  now rewrite load_own_state_dict.
Qed.

(** What a successful [update] returns. *)
Lemma update_value (self m1 : Model) (train_x train_y : Tensor R)
    (warmstart : bool) (w w' : World) :
  update self train_x train_y warmstart w = (Ok m1, w') ->
  exists x_aug,
    _augment_with_deriv_index train_x 0 = Ok x_aug
    /\ m1 = fit_gpytorch_model (set_train_data self x_aug train_y).
Proof.
  rewrite update_is_fit. unfold fit, _set_model, bind, lift, ret.
  destruct (_augment_with_deriv_index train_x 0) as [x_aug|e];
    [|discriminate].
  intros H. injection H as <- _. eauto.
Qed.


(** X2.  [update] with [warmstart=True] loads the snapshot the model has just
    given of itself, so the flag has no effect: either way the call does
    what [fit] does. *)
Theorem warmstart_has_no_effect (self : Model) (train_x train_y : Tensor R)
    (w : World) :
  update self train_x train_y true w = update self train_x train_y false w
  /\ update self train_x train_y true w = fit self train_x train_y w.
Proof.
  split; now rewrite !update_is_fit.
Qed.


(** X4.  [update] moves parameters and training data only: bounds,
    dimension, inducing points, monotonic indices, sample counts, likelihood
    and stored prior mean are those of the model it was called on, and so
    are the invariant of construction and the constraint points. *)
Theorem update_keeps_configuration (self m1 : Model)
    (train_x train_y : Tensor R) (warmstart : bool) (w w' : World) :
  update self train_x train_y warmstart w = (Ok m1, w') ->
  lb m1 = lb self /\ ub m1 = ub self /\ dim m1 = dim self
  /\ inducing_points m1 = inducing_points self
  /\ num_induc m1 = num_induc self
  /\ monotonic_idxs m1 = monotonic_idxs self
  /\ num_samples m1 = num_samples self
  /\ num_rejection_samples m1 = num_rejection_samples self
  /\ likelihood m1 = likelihood self
  /\ fixed_prior_mean m1 = fixed_prior_mean self
  /\ constructed m1 = constructed self
  /\ _get_deriv_constraint_points m1 = _get_deriv_constraint_points self.
Proof.
  intros Hrun.
  destruct (update_value self train_x train_y warmstart w Hrun)
    as (x_aug & _ & ->).
  repeat split.
Qed.

(** X5.  A successful construction stores [num_induc] inducing points (25
    when the argument is left out) of as many entries as the bounds have,
    takes that number as the dimension, keeps the bounds and the monotonic
    indices as given, and holds no training data. *)
Theorem init_inducing_points_shape
    (idxs : list Z) (l u : list R) (od : option nat)
    (mm : option (Mean R)) (cm : option Kernel) (lik : option Likelihood)
    (fpm : option R) (ni ns nr : option nat) (w w' : World) (m : Model) :
  __init__ idxs l u od mm cm lik fpm ni ns nr w = (Ok m, w') ->
  shape (inducing_points m) = [resolve ni 25; length l]
  /\ wf (inducing_points m) = true
  /\ num_induc m = resolve ni 25
  /\ dim m = length l /\ lb m = l /\ ub m = u
  /\ monotonic_idxs m = idxs
  /\ train_inputs m = None /\ train_targets m = None.
Proof.
  intros Hinit. apply init_value in Hinit as [-> _]. simpl.
  rewrite length_map, length_seq.
  repeat split. apply length_sobol_rows.
Qed.

(** X6.  The attribute [fixed_prior_mean] of a constructed model holds the
    value the constant was set to, in latent space: under a Bernoulli
    likelihood it is [norm.ppf] of the probability that was passed in, not
    that probability. *)
Theorem stored_fixed_prior_mean_is_latent
    (idxs : list Z) (l u : list R) (od : option nat)
    (mm : option (Mean R)) (cm : option Kernel) (lik : option Likelihood)
    (p : R) (ni ns nr : option nat) (w w' : World) (m : Model) :
  __init__ idxs l u od mm cm lik (Some p) ni ns nr w = (Ok m, w') ->
  fixed_prior_mean m = Some (value (constant (mean_module m)))
  /\ (is_bernoulli (likelihood m) = true ->
      fixed_prior_mean m = Some (norm_ppf p))
  /\ (is_bernoulli (likelihood m) = false -> fixed_prior_mean m = Some p).
Proof.
  intros Hinit. apply init_value in Hinit as [-> _]. simpl.
  split; [reflexivity|].
  split; intros ->; reflexivity.
Qed.

(** The ratio warning is among the new warnings of a call of [sample]
    exactly when the draw budget is below twenty times the target. *)
Lemma ratio_warning_logged (self : Model) (X : Tensor R) (oS oR : option nat)
    (w : World) :
  In (UserWarning ratio_message)
     (new_warnings w (snd (sample self X oS oR w)))
  <-> resolve oR (num_rejection_samples self)
      < resolve oS (num_samples self) * 20.
Proof.
  set (S0 := resolve oS (num_samples self)).
  set (R0 := resolve oR (num_rejection_samples self)).
  assert (Hlog : exists tail,
             new_warnings w (snd (sample self X oS oR w))
             = (if R0 <? S0 * rejection_ratio
                then [UserWarning ratio_message] else []) ++ tail
             /\ (tail = [] \/ tail = [UserWarning shortfall_message])).
  { unfold new_warnings.
    destruct (sample_outcome self X oS oR w)
      as [(e & ->)|(t & tail & -> & Htail)];
      fold S0; fold R0; simpl snd.
    - exists []. rewrite warnings_after_ratio_check, skipn_length_app.
      rewrite app_nil_r. auto.
    - exists tail. simpl warnings.
      rewrite warnings_after_ratio_check, <- app_assoc, skipn_length_app.
      auto. }
  destruct Hlog as (tail & -> & Htail).
  unfold rejection_ratio.
  destruct (R0 <? S0 * 20) eqn:Hlt.
  - apply Nat.ltb_lt in Hlt. split; [lia|]. intros _. now left.
  - apply Nat.ltb_ge in Hlt. split; [|lia].
    simpl. destruct Htail as [-> | ->]; simpl; [tauto|].
    intros [H|[]]. discriminate H.
Qed.

(** X7.  [from_config] on a configuration that gives the bounds and leaves
    the other settings out builds a model with 25 inducing points, 250
    samples out of 5000 draws, a Bernoulli likelihood, no fixed prior mean
    and the mean and covariance of the factory.  With these defaults the
    budget is exactly twenty times the target, so [sample] and [predict]
    without arguments do not emit the ratio warning. *)
Theorem from_config_defaults (config : Config R) (w w' : World) (m : Model) :
  cfg_num_induc config = None ->
  cfg_num_samples config = None ->
  cfg_num_rejection_samples config = None ->
  from_config config w = (Ok m, w') ->
  num_induc m = 25 /\ num_samples m = 250 /\ num_rejection_samples m = 5000
  /\ likelihood m = BernoulliLikelihood
  /\ fixed_prior_mean m = None
  /\ mean_module m = fst (mean_covar_factory config)
  /\ covar_module m = snd (mean_covar_factory config)
  /\ cfg_lb config = Some (lb m) /\ cfg_ub config = Some (ub m)
  /\ (forall X w0,
        ~ In (UserWarning ratio_message)
             (new_warnings w0 (snd (sample m X None None w0)))).
Proof.
  intros Hni Hns Hnr. unfold from_config. rewrite Hni, Hns, Hnr.
  unfold bind at 1, lift.
  destruct (cfg_lb config) as [l|]; [|discriminate].
  unfold bind at 1.
  destruct (cfg_ub config) as [u|]; [|discriminate].
  simpl config_require. cbv beta iota.
  destruct (mean_covar_factory config) as [mean covar].
  intros Hinit. apply init_value in Hinit as [-> _]. simpl.
  repeat split.
  intros X w0 Hin. apply ratio_warning_logged in Hin. simpl in Hin. lia.
Qed.

(** X16.  [fit] and [update] reject training inputs of rank 0 and non-empty
    inputs of rank 1: the augmentation of line 183 raises, no model is
    returned and the interpreter state is as it was. *)
Theorem fit_rejects_inputs_not_of_rank_2 (self : Model)
    (train_x train_y : Tensor R) (warmstart : bool) (w : World) :
  (exists x, train_x = T0 x) \/ (exists x v, train_x = T1 (x :: v)) ->
  exists e,
    fit self train_x train_y w = (Raise e, w)
    /\ update self train_x train_y warmstart w = (Raise e, w).
Proof.
  intros Hrank. rewrite update_is_fit.
  unfold fit, _set_model, bind, lift.
  destruct Hrank as [(x & ->)|(x & v & ->)]; eexists; split; reflexivity.
Qed.

Lemma squeeze_vector (v : list R) :
  length v <> 1 -> squeeze (T1 v) = T1 v.
Proof.
  destruct v as [|x [|y v]]; simpl; intros H; try reflexivity.
  now contradiction H.
Qed.

(** X8.  For a query of [n] rows, [n] other than 1, of the dimension of the
    model, [predict] returns a mean and a variance of shape [(n,)]. *)
Theorem predict_shapes_many_rows (self : Model) (rows : list (list R))
    (w : World) :
  constructed self = true ->
  length rows <> 1 ->
  exists mean variance w',
    predict self (T2 (dim self) rows) false w = (Ok (mean, variance), w')
    /\ shape mean = [length rows]
    /\ shape variance = [length rows].
Proof.
  intros Hc Hn.
  destruct (predict_run self rows false w Hc) as (out & w' & _ & Hp).
  cbv zeta in Hp. simpl tmap in Hp.
  rewrite !squeeze_vector in Hp
    by (rewrite ?length_map, length_seq; exact Hn).
  do 3 eexists. split; [exact Hp|].
  simpl. now rewrite !length_map, length_seq.
Qed.

(** X10.  On a model with at least one monotonic index, a query whose rows
    have another number of entries than the dimension fails in the
    concatenation of line 252: the call raises a [RuntimeError] after the
    check of the ratio and before any draw, the generator being left as it
    was. *)
Theorem sample_rejects_wrong_dimension (self : Model) (c : nat)
    (rows : list (list R)) (oS oR : option nat) (w : World) :
  constructed self = true ->
  monotonic_idxs self <> [] ->
  num_induc self <> 0 ->
  c <> dim self ->
  exists msg,
    sample self (T2 c rows) oS oR w
    = (Raise (RuntimeError msg),
       after_ratio_check (resolve oS (num_samples self))
         (resolve oR (num_rejection_samples self)) w)
    /\ rng (snd (sample self (T2 c rows) oS oR w)) = rng w.
Proof.
  intros Hc Hidx _ Hdim.
  destruct (constructed_inv self Hc) as (pts & Hpts & Hn & Hwf).
  eexists. rewrite and_comm.
  assert (Hrun : sample self (T2 c rows) oS oR w
                 = (Raise (RuntimeError
                      "Sizes of tensors must match except in dimension 0"),
                    after_ratio_check (resolve oS (num_samples self))
                      (resolve oR (num_rejection_samples self)) w)).
  { unfold sample. rewrite ratio_check_run. cbv beta.
    rewrite bind_lift, shape0_rank2. cbv beta iota.
    rewrite bind_lift, augment_rank2. cbv beta iota.
    rewrite bind_lift, (constraint_points_value self Hpts). cbv beta iota.
    destruct (monotonic_idxs self) as [|i idxs]; [contradiction|].
    rewrite bind_lift, cat_rank2.
    destruct (c + 1 =? dim self + 1) eqn:Heq; [|reflexivity].
    apply Nat.eqb_eq in Heq. lia. }
  rewrite Hrun. split; [|reflexivity].
  simpl. apply rng_after_ratio_check.
Qed.

End FitFacts.

Section JndFacts.

Context {R Kernel NdArray : Type}.
Context {Num : Numerics R} {Col : Collaborators R Kernel}.
Context {QNum : QueryNumerics R NdArray}.

#[local] Abbreviation Model := (MonotonicRejectionGP R Kernel).

(** X13.  On a [MonotonicRejectionGP], [get_jnd] with a credible level draws
    [confsamps] samples under the budget stored in the model.  When that
    budget is below twenty times [confsamps] (as for the defaults, 5000 and
    500) the call emits the ratio warning, whatever the method. *)
Theorem get_jnd_interval_emits_ratio_warning (self : Model)
    (grid : option (Tensor R)) (cred : R) (intensity_dim : Z)
    (confsamps : nat) (method : string) (w : World)
    (gridsize : nat) (lo hi : R) :
  let g := match grid with Some g => g | None => dim_grid self 30 end in
  grid_size g = Ok gridsize ->
  py_index (lb self) intensity_dim = Ok lo ->
  py_index (ub self) intensity_dim = Ok hi ->
  num_rejection_samples self < confsamps * 20 ->
  In (UserWarning ratio_message)
     (new_warnings w
        (snd (get_jnd self grid (Some cred) intensity_dim confsamps method w))).
Proof.
  intros g Hg Hlo Hhi Hlt.
  assert (Hworld :
            snd (get_jnd self grid (Some cred) intensity_dim confsamps method w)
            = snd (sample self g (Some confsamps) None w)).
  { unfold get_jnd, bind, lift, ret. fold g. simpl model_lb. simpl model_ub.
    rewrite Hg, Hlo, Hhi. simpl model_sample.
    destruct (sample self g (Some confsamps) None w) as [[fsamps|e] w1];
      [|reflexivity].
    destruct (method =? "taylor")%string.
    - now destruct (taylor_jnd_samples _ _ _ _ _ _).
    - destruct (method =? "step")%string; [|reflexivity].
      now destruct (step_jnd_samples _ _ _ _ _). }
  rewrite Hworld. apply ratio_warning_logged. exact Hlt.
Qed.

End JndFacts.

Section InverseFacts.

Context {R NdArray Self : Type}.
Context {Num : Numerics R} {QNum : QueryNumerics R NdArray}.
Context {INum : InverseNumerics R} {Mdl : AEPsychModel R Self}.

Lemma length_replace_at {A} (l : list A) (p : nat) (v : A) :
  length (replace_at l p v) = length l.
Proof.
  revert p. induction l as [|x l IH]; intros [|p]; simpl; auto.
Qed.

Lemma nth_error_replace_at {A} (l : list A) (p q : nat) (v : A) :
  p < length l ->
  nth_error (replace_at l p v) q
  = if q =? p then Some v else nth_error l q.
Proof.
  revert p q. induction l as [|x l IH]; intros p q Hp; simpl in Hp; [lia|].
  destruct p as [|p], q as [|q]; simpl; try reflexivity.
  apply IH. lia.
Qed.

Lemma position_lt (n : nat) (i : Z) (p : nat) :
  position n i = Some p -> p < n.
Proof.
  unfold position.
  destruct (_ <? 0)%Z eqn:Hneg; [discriminate|].
  destruct (_ <? Z.of_nat n)%Z eqn:Hlt; [|discriminate].
  intros H. injection H as <-.
  apply Z.ltb_lt in Hlt. apply Z.ltb_ge in Hneg. lia.
Qed.

Lemma lock_bounds_snoc (l u : list R) (locked : list (Z * R)) (e : Z * R) :
  lock_bounds l u (locked ++ [e]) = lock_step (lock_bounds l u locked) e.
Proof. unfold lock_bounds. now rewrite fold_left_app. Qed.

Lemma locked_value_snoc (n : nat) (locked : list (Z * R)) (e : Z * R)
    (p : nat) :
  locked_value n (locked ++ [e]) p
  = match position n (fst e) with
    | Some q => if q =? p then Some (snd e) else locked_value n locked p
    | None => locked_value n locked p
    end.
Proof. unfold locked_value. now rewrite fold_left_app. Qed.

(** X14.  When every key of [locked_dims] names a dimension, the loop of
    lines 149-151 returns bounds of the same lengths in which each locked
    dimension has lower and upper bound equal to the value given for it (the
    last one, when several keys name the same dimension) and every other
    dimension keeps the bounds of the model. *)
Theorem lock_bounds_pins_locked_dims (l u : list R)
    (locked_dims : list (Z * R)) :
  length l = length u ->
  Forall (fun e => position (length l) (fst e) <> None) locked_dims ->
  exists l' u',
    lock_bounds l u locked_dims = Ok (l', u')
    /\ length l' = length l /\ length u' = length u
    /\ forall p,
         match locked_value (length l) locked_dims p with
         | Some v => nth_error l' p = Some v /\ nth_error u' p = Some v
         | None => nth_error l' p = nth_error l p
                   /\ nth_error u' p = nth_error u p
         end.
Proof.
  intros Hlen. induction locked_dims as [|e locked IH] using rev_ind.
  - intros _. exists l, u. repeat split.
  - intros Hall. apply Forall_app in Hall as [Hall He].
    apply Forall_inv in He.
    destruct (IH Hall) as (l1 & u1 & Hrun & Hl1 & Hu1 & Hval).
    rewrite lock_bounds_snoc, Hrun. unfold lock_step, py_setitem. simpl.
    rewrite Hl1. replace (length u1) with (length l) by congruence.
    destruct (position (length l) (fst e)) as [q|] eqn:Hq; [|congruence].
    simpl. do 2 eexists. split; [reflexivity|].
    rewrite !length_replace_at. split; [exact Hl1|]. split; [exact Hu1|].
    intros p. rewrite locked_value_snoc, Hq. specialize (Hval p).
    pose proof (position_lt _ _ Hq) as Hlt.
    rewrite !nth_error_replace_at by lia.
    rewrite (Nat.eqb_sym p q).
    destruct (q =? p); [auto|exact Hval].
Qed.

Lemma lock_fold_raise (locked : list (Z * R)) (e : exn) :
  fold_left (lock_step (R := R)) locked (Raise e) = Raise e.
Proof. induction locked as [|x locked IH]; simpl; auto. Qed.

Lemma lock_step_ok (l u : list R) (e : Z * R) :
  lock_step (Ok (l, u)) e
  = match position (length l) (fst e), position (length u) (fst e) with
    | Some p, Some q =>
        Ok (replace_at l p (snd e), replace_at u q (snd e))
    | _, _ => Raise (IndexError "index out of range")
    end.
Proof.
  unfold lock_step, py_setitem. simpl.
  destruct (position (length l) (fst e)); simpl; [|reflexivity].
  now destruct (position (length u) (fst e)).
Qed.

Lemma lock_bounds_bad_key (l u : list R) (locked : list (Z * R)) :
  length l = length u ->
  Exists (fun e => position (length l) (fst e) = None) locked ->
  lock_bounds l u locked = Raise (IndexError "index out of range").
Proof.
  unfold lock_bounds. revert l u.
  induction locked as [|e locked IH]; intros l u Hlen Hbad.
  - inversion Hbad.
  - cbn [fold_left]. rewrite lock_step_ok, <- Hlen.
    destruct (position (length l) (fst e)) as [q|] eqn:Hq.
    + apply IH.
      * now rewrite !length_replace_at.
      * rewrite length_replace_at.
        inversion Hbad as [? ? Hhead|? ? Htail]; subst; [congruence|exact Htail].
    + apply lock_fold_raise.
Qed.

(** X15.  When some key of [locked_dims] names no dimension of the model,
    [inv_query] raises an [IndexError] before it predicts anything: the
    interpreter state is as it was. *)
Theorem inv_query_rejects_unknown_dim (self : Self) (y : R)
    (locked_dims : list (Z * R)) (probability_space : bool)
    (n_samples : nat) (w : World) :
  length (model_lb self) = length (model_ub self) ->
  Exists (fun e => position (length (model_lb self)) (fst e) = None)
         locked_dims ->
  exists msg,
    inv_query self y locked_dims probability_space n_samples w
    = (Raise (IndexError msg), w).
Proof.
  intros Hlen Hbad. eexists. unfold inv_query, bind at 1, lift.
  now rewrite (lock_bounds_bad_key _ _ Hlen Hbad).
Qed.

End InverseFacts.

(** * The further properties at concrete inputs *)

Section FurtherWitnesses.

Import IntInstance IntQueries.

#[local] Existing Instance numerics.
#[local] Existing Instance collaborators.
#[local] Existing Instance query_numerics.
#[local] Existing Instance inverse_numerics.


Lemma update_keeps_configuration_witness :
  exists m1,
    update regression_model train_x train_y true world0 = (Ok m1, world0)
    /\ inducing_points m1 = T2 2 [[0; 0]; [1; 1]]%Z
    /\ _get_deriv_constraint_points m1
       = Ok (T2 3 [[0; 0; 2]; [1; 1; 2]]%Z).
Proof.
  eexists. split; [reflexivity|].
  destruct (update_keeps_configuration (Num := numerics)
              (Col := collaborators) regression_model train_x train_y true
              world0 eq_refl)
    as (_ & _ & _ & Hpts & _ & _ & _ & _ & _ & _ & _ & Hcp).
  split; [exact Hpts|exact Hcp].
Defined.

Lemma init_inducing_points_shape_witness :
  shape (inducing_points classification_model) = [2; 2]
  /\ dim classification_model = 2
  /\ train_inputs classification_model = None.
Proof.
  destruct (init_inducing_points_shape (Num := numerics)
              (Col := collaborators)
              [1%Z] [0; 0]%Z [4; 4]%Z None None None
              (Some BernoulliLikelihood) (Some 75%Z) (Some 2) (Some 3)
              (Some 4) world0 (w' := mkWorld 1 [])
              (m := classification_model) eq_refl)
    as (Hshape & _ & _ & Hdim & _ & _ & _ & Hin & _).
  auto.
Defined.

Lemma stored_fixed_prior_mean_is_latent_witness :
  fixed_prior_mean classification_model = Some 25%Z.
Proof.
  destruct (stored_fixed_prior_mean_is_latent (Num := numerics)
              (Col := collaborators)
              [1%Z] [0; 0]%Z [4; 4]%Z None None None
              (Some BernoulliLikelihood) 75%Z (Some 2) (Some 3)
              (Some 4) world0 (w' := mkWorld 1 [])
              (m := classification_model) eq_refl)
    as (_ & Hbern & _).
  exact (Hbern eq_refl).
Defined.

Lemma from_config_defaults_witness :
  num_induc bounds_only_model = 25
  /\ num_samples bounds_only_model = 250
  /\ num_rejection_samples bounds_only_model = 5000
  /\ ~ In (UserWarning ratio_message)
          (new_warnings world0
             (snd (sample bounds_only_model train_x None None world0))).
Proof.
  destruct (from_config_defaults (Num := numerics) (Col := collaborators)
              bounds_only_config world0 (w' := mkWorld 1 [])
              (m := bounds_only_model) eq_refl eq_refl eq_refl eq_refl)
    as (Hni & Hns & Hnr & _ & _ & _ & _ & _ & _ & Hquiet).
  split; [exact Hni|]. split; [exact Hns|]. split; [exact Hnr|].
  exact (Hquiet train_x world0).
Defined.

Lemma fit_rejects_inputs_not_of_rank_2_witness :
  exists e,
    fit regression_model (T1 [1; 2]%Z) train_y world0 = (Raise e, world0)
    /\ update regression_model (T1 [1; 2]%Z) train_y true world0
       = (Raise e, world0).
Proof.
  exact (fit_rejects_inputs_not_of_rank_2 (Num := numerics)
           (Col := collaborators) regression_model (train_x := T1 [1; 2]%Z)
           train_y true world0
           (or_intror (ex_intro _ 1%Z (ex_intro _ [2%Z] eq_refl)))).
Defined.

Lemma predict_shapes_many_rows_witness :
  exists mean variance w',
    predict regression_model train_x false world0 = (Ok (mean, variance), w')
    /\ shape mean = [3] /\ shape variance = [3].
Proof.
  apply (predict_shapes_many_rows (Num := numerics) (Col := collaborators)
           regression_model [[0; 0]; [1; 1]; [2; 2]]%Z world0 eq_refl).
  discriminate.
Defined.

Lemma sample_rejects_wrong_dimension_witness :
  exists msg,
    sample regression_model (T2 3 [[1; 2; 3]]%Z) None None world0
    = (Raise (RuntimeError msg), after_ratio_check 3 4 world0)
    /\ rng (snd (sample regression_model (T2 3 [[1; 2; 3]]%Z) None None
                   world0)) = 0.
Proof.
  apply (sample_rejects_wrong_dimension (Num := numerics)
           (Col := collaborators) regression_model (c := 3) [[1; 2; 3]]%Z
           None None world0 eq_refl); discriminate.
Defined.

Lemma get_extremum_unknown_type_witness :
  fst (_get_extremum regression_model "median" 5 world0)
  = Raise (RuntimeError
             "Unknown extremum type: 'median'! Valid types: 'min', 'max' ").
Proof.
  refine (f_equal fst
            (get_extremum_unknown_type regression_model "median" 5 world0
               eq_refl eq_refl _)); reflexivity.
Defined.

Lemma get_jnd_unknown_method_with_cred_level_witness :
  fst (get_jnd regression_model (Some train_x) (Some 95%Z) (-1) 5 "foo" world0)
  = Raise (RuntimeError "Unknown method foo!").
Proof.
  refine (f_equal fst
            (get_jnd_unknown_method_with_cred_level
               (Mdl := MonotonicRejectionGP_AEPsychModel (Num := numerics)
                         (Col := collaborators))
               regression_model train_x
               95%Z (-1) 5 "foo" world0 eq_refl eq_refl _ _ _ _));
    vm_compute; reflexivity.
Defined.

Lemma get_jnd_interval_emits_ratio_warning_witness :
  In (UserWarning ratio_message)
     (new_warnings world0
        (snd (get_jnd regression_model None (Some 95%Z) (-1) 500 "step"
                world0))).
Proof.
  refine (get_jnd_interval_emits_ratio_warning (Num := numerics)
            (Col := collaborators) (QNum := query_numerics)
            regression_model None 95%Z (-1) 500 "step" world0 _ _ _ _);
    try reflexivity.
  vm_compute. lia.
Defined.

Lemma lock_bounds_pins_locked_dims_witness :
  exists l' u',
    lock_bounds [0; 0]%Z [4; 4]%Z [((-1)%Z, 3%Z)] = Ok (l', u')
    /\ (nth_error l' 1 = Some 3%Z /\ nth_error u' 1 = Some 3%Z)
    /\ (nth_error l' 0 = Some 0%Z /\ nth_error u' 0 = Some 4%Z).
Proof.
  destruct (lock_bounds_pins_locked_dims [0; 0]%Z [4; 4]%Z
              (locked_dims := [((-1)%Z, 3%Z)]) eq_refl)
    as (l' & u' & Hrun & _ & _ & Hval).
  - repeat constructor. discriminate.
  - exists l', u'. split; [exact Hrun|].
    split; [exact (Hval 1)|exact (Hval 0)].
Defined.

Lemma inv_query_rejects_unknown_dim_witness :
  exists msg,
    inv_query regression_model 1%Z [(2%Z, 1%Z)] false 5 world0
    = (Raise (IndexError msg), world0).
Proof.
  apply (inv_query_rejects_unknown_dim (Mdl := MonotonicRejectionGP_AEPsychModel)
           (INum := inverse_numerics) (QNum := query_numerics)
           regression_model 1%Z (locked_dims := [(2%Z, 1%Z)]) false 5 world0
           eq_refl).
  now constructor.
Defined.

End FurtherWitnesses.
